(** * The proof-of-work miner of shitcoin (src/shitcoin/miner.py)

    A shallow embedding of the [Miner] class: the controller operations
    ([start_mining], [stop_mining], [get_hashrate], [get_mined_block],
    [retarget]) as state transformers on the miner object, and the body of
    the hashing thread ([mine]) as a step function between the points where
    the thread takes the lock or reads a clock.  Block objects live in a
    store indexed by object identity, since the thread and the controller
    hold references to the same block. *)

From Stdlib Require Import ZArith List Lia.
From Stdlib Require Import Strings.Byte.
From stdpp Require Import gmap list relations.

Local Open Scope Z_scope.

(** ** Python values used by the miner *)

Module Py.

(** Exceptions that the modelled code can raise. *)
Inductive exn : Type :=
  | MinerIsRunningException
  | MinerIsNotRunningException
  | ValueError           (* negative shift count *)
  | StructError          (* struct.pack argument out of range *)
  | ZeroDivisionError
  | AttributeError.      (* attribute access on None *)

Inductive result (A : Type) : Type :=
  | Ok (a : A)
  | Raise (e : exn).
Arguments Ok {A} a.
Arguments Raise {A} e.

Definition bytes := list byte.

Definition byte_val (b : byte) : Z := Z.of_N (Byte.to_N b).

Definition byte_of_Z (z : Z) : byte :=
  match Byte.of_N (Z.to_N (z mod 256)) with
  | Some b => b
  | None => x00
  end.

(** [int.from_bytes(bs, byteorder='big')] *)
Definition int_from_bytes_big (bs : bytes) : Z :=
  fold_left (fun acc b => acc * 256 + byte_val b) bs 0.

(** The [len] low-order base-256 digits of [n], most significant first. *)
Fixpoint to_bytes_big (len : nat) (n : Z) : bytes :=
  match len with
  | O => []
  | S len' => to_bytes_big len' (n / 256) ++ [byte_of_Z (n mod 256)]
  end.

(** [struct.pack('>Q', n)]: eight bytes, big-endian; [struct.error] when
    [n] is not an unsigned 64-bit value. *)
Definition pack_Q (n : Z) : result bytes :=
  if (0 <=? n) && (n <? 2 ^ 64) then Ok (to_bytes_big 8 n)
  else Raise StructError.

(** [1 << k] on Python integers: [ValueError] for a negative count. *)
Definition shl_one (k : Z) : result Z :=
  if k <? 0 then Raise ValueError else Ok (Z.shiftl 1 k).

(** [bs[:-8]] *)
Definition drop_last8 (bs : bytes) : bytes :=
  firstn (length bs - 8)%nat bs.

End Py.

Import Py.

(** ** Data model *)

(** Identity of a [Block] object in the store. *)
Abbreviation loc := positive.

(** Modelled from the spec: the classes [Input], [Output] and [Transaction]
    of transaction.py, which is not part of the sources, with the
    attributes the miner sets: the index of an input; the amount, the
    address and the containing block of an output; the inputs and the
    outputs of a transaction. *)
Record Input := { index : Z }.

Record Output := {
  amount : Z;
  out_pubkey : bytes;
  out_block : option loc          (* back reference to the containing block *)
}.

Record Transaction := {
  inputs : list Input;
  outputs : list Output
}.

Section BlockData.
Context {Head : Type}.

(** Modelled from the spec: the [Block] class lives in block.py, which is
    not part of the sources.  A candidate block is "a block value with
    parent/previous-hash linkage, timestamp, difficulty, an ordered
    sequence of transactions, a merkle root, and a mutable nonce field". *)
Record Block := {
  parent : option Head;
  prev_hash : bytes;
  timestamp : Z;
  diff : Z;
  txs : list Transaction;
  nonce : Z;
  merkle_root : bytes
}.

(** Modelled from the spec: the constructor [Block()] of block.py, which
    is not part of the sources; a block with nothing set and no
    transactions. *)
Definition Block_new : Block :=
  {| parent := None; prev_hash := []; timestamp := 0; diff := 0;
     txs := []; nonce := 0; merkle_root := [] |}.

(** Modelled from the spec: [Block.set_parent] sets the parent linkage. *)
Definition set_parent (hd : Head) (b : Block) : Block :=
  {| parent := Some hd; prev_hash := prev_hash b; timestamp := timestamp b;
     diff := diff b; txs := txs b; nonce := nonce b;
     merkle_root := merkle_root b |}.

Definition set_prev_hash (h : bytes) (b : Block) : Block :=
  {| parent := parent b; prev_hash := h; timestamp := timestamp b;
     diff := diff b; txs := txs b; nonce := nonce b;
     merkle_root := merkle_root b |}.

Definition set_timestamp (t : Z) (b : Block) : Block :=
  {| parent := parent b; prev_hash := prev_hash b; timestamp := t;
     diff := diff b; txs := txs b; nonce := nonce b;
     merkle_root := merkle_root b |}.

Definition set_diff (d : Z) (b : Block) : Block :=
  {| parent := parent b; prev_hash := prev_hash b; timestamp := timestamp b;
     diff := d; txs := txs b; nonce := nonce b;
     merkle_root := merkle_root b |}.

Definition set_txs (ts : list Transaction) (b : Block) : Block :=
  {| parent := parent b; prev_hash := prev_hash b; timestamp := timestamp b;
     diff := diff b; txs := ts; nonce := nonce b;
     merkle_root := merkle_root b |}.

Definition set_nonce (n : Z) (b : Block) : Block :=
  {| parent := parent b; prev_hash := prev_hash b; timestamp := timestamp b;
     diff := diff b; txs := txs b; nonce := n;
     merkle_root := merkle_root b |}.

Definition set_merkle_root (r : bytes) (b : Block) : Block :=
  {| parent := parent b; prev_hash := prev_hash b; timestamp := timestamp b;
     diff := diff b; txs := txs b; nonce := nonce b;
     merkle_root := r |}.

(** Modelled from the spec: [Block.add_transactions] "appends all
    currently-pending transactions in an externally-supplied order". *)
Definition add_transactions (ts : list Transaction) (b : Block) : Block :=
  set_txs (txs b ++ ts) b.

(** [blk.txs.append(tx)] *)
Definition txs_append (tx : Transaction) (b : Block) : Block :=
  set_txs (txs b ++ [tx]) b.
End BlockData.
Arguments Block : clear implicits.

(** ** Collaborators

    Everything the miner imports from modules that are outside the sources
    (crypto, settings, validation, block, time) is a field of this class. *)
Class Collaborators := {
  ChainHead : Type;
  Float : Type;
  (* crypto *)
  HASH_LEN : Z;
  crypto_h : bytes -> bytes;
  (* settings *)
  INITIAL_REWARD : Z;
  REWARD_HALVING_LEN : Z;
  (* validation *)
  get_next_diff : ChainHead -> Z;
  (* block *)
  get_hash : ChainHead -> bytes;
  get_height : Block ChainHead -> Z;
  serialize_header : Block ChainHead -> bytes;
  merkle_root_of : list Transaction -> bytes;
  (* hashrate arithmetic: [n / (t1 - t0)] on floats, [None] when the
     elapsed time is zero (ZeroDivisionError) *)
  float_zero : Float;
  hashrate_of : Z -> Float -> Float -> option Float;
  (* the halving length is a positive constant and heights are counts, so
     that [//] and [**] below stay within integer arithmetic *)
  REWARD_HALVING_LEN_pos : 0 < REWARD_HALVING_LEN;
  get_height_nonneg : forall b, 0 <= get_height b
}.

(** The one callback the miner hands out: [partial(Miner.retarget, self)]. *)
Inductive Callback : Type := RetargetCallback.

Global Instance Callback_eq_dec : EqDecision Callback.
Proof. solve_decision. Defined.

(** The thread object created by [start_mining]. *)
Inductive Thread : Type := MinerThread.

Section Miner.
Context {E : Collaborators}.

Abbreviation block := (Block ChainHead).

(** Modelled from the spec: the [Blockchain] class (blockchain.py is not
    part of the sources), reduced to what the miner uses of the chain
    service: its head ([get_head]) and the listeners registered for head
    changes. *)
Record Blockchain := {
  head : ChainHead;
  new_block_callbacks : list Callback
}.

(** Modelled from the spec: the [Mempool] class (mempool.py is not part of
    the sources), reduced to what the miner uses of the mempool service:
    the pending transactions in snapshot order, keyed by transaction id,
    their total fees, and the listeners registered for mempool changes. *)
Record Mempool := {
  transactions : list (bytes * Transaction);
  total_fees : Z;
  new_tx_callbacks : list Callback
}.

(** The miner object together with the store of the block objects it can
    reach.  [stop_event] and [retarget_event] hold the flag of the two
    [threading.Event]s. *)
Record Miner := {
  blockchain : Blockchain;
  mempool : Mempool;
  pubkey : bytes;
  reduce_local_diff : bool;
  mining_thread : option Thread;
  target_block : option loc;
  hashrate : Float;
  mined_block : option loc;
  stop_event : bool;
  retarget_event : bool;
  heap : gmap loc block
}.

Definition set_blockchain (x : Blockchain) (m : Miner) : Miner :=
  {| blockchain := x; mempool := mempool m; pubkey := pubkey m;
     reduce_local_diff := reduce_local_diff m;
     mining_thread := mining_thread m; target_block := target_block m;
     hashrate := hashrate m; mined_block := mined_block m;
     stop_event := stop_event m; retarget_event := retarget_event m;
     heap := heap m |}.

Definition set_mempool (x : Mempool) (m : Miner) : Miner :=
  {| blockchain := blockchain m; mempool := x; pubkey := pubkey m;
     reduce_local_diff := reduce_local_diff m;
     mining_thread := mining_thread m; target_block := target_block m;
     hashrate := hashrate m; mined_block := mined_block m;
     stop_event := stop_event m; retarget_event := retarget_event m;
     heap := heap m |}.

Definition set_pubkey (x : bytes) (m : Miner) : Miner :=
  {| blockchain := blockchain m; mempool := mempool m; pubkey := x;
     reduce_local_diff := reduce_local_diff m;
     mining_thread := mining_thread m; target_block := target_block m;
     hashrate := hashrate m; mined_block := mined_block m;
     stop_event := stop_event m; retarget_event := retarget_event m;
     heap := heap m |}.

Definition set_mining_thread (x : option Thread) (m : Miner) : Miner :=
  {| blockchain := blockchain m; mempool := mempool m; pubkey := pubkey m;
     reduce_local_diff := reduce_local_diff m;
     mining_thread := x; target_block := target_block m;
     hashrate := hashrate m; mined_block := mined_block m;
     stop_event := stop_event m; retarget_event := retarget_event m;
     heap := heap m |}.

Definition set_target_block (x : option loc) (m : Miner) : Miner :=
  {| blockchain := blockchain m; mempool := mempool m; pubkey := pubkey m;
     reduce_local_diff := reduce_local_diff m;
     mining_thread := mining_thread m; target_block := x;
     hashrate := hashrate m; mined_block := mined_block m;
     stop_event := stop_event m; retarget_event := retarget_event m;
     heap := heap m |}.

Definition set_hashrate (x : Float) (m : Miner) : Miner :=
  {| blockchain := blockchain m; mempool := mempool m; pubkey := pubkey m;
     reduce_local_diff := reduce_local_diff m;
     mining_thread := mining_thread m; target_block := target_block m;
     hashrate := x; mined_block := mined_block m;
     stop_event := stop_event m; retarget_event := retarget_event m;
     heap := heap m |}.

Definition set_mined_block (x : option loc) (m : Miner) : Miner :=
  {| blockchain := blockchain m; mempool := mempool m; pubkey := pubkey m;
     reduce_local_diff := reduce_local_diff m;
     mining_thread := mining_thread m; target_block := target_block m;
     hashrate := hashrate m; mined_block := x;
     stop_event := stop_event m; retarget_event := retarget_event m;
     heap := heap m |}.

Definition set_stop_event (x : bool) (m : Miner) : Miner :=
  {| blockchain := blockchain m; mempool := mempool m; pubkey := pubkey m;
     reduce_local_diff := reduce_local_diff m;
     mining_thread := mining_thread m; target_block := target_block m;
     hashrate := hashrate m; mined_block := mined_block m;
     stop_event := x; retarget_event := retarget_event m;
     heap := heap m |}.

Definition set_retarget_event (x : bool) (m : Miner) : Miner :=
  {| blockchain := blockchain m; mempool := mempool m; pubkey := pubkey m;
     reduce_local_diff := reduce_local_diff m;
     mining_thread := mining_thread m; target_block := target_block m;
     hashrate := hashrate m; mined_block := mined_block m;
     stop_event := stop_event m; retarget_event := x;
     heap := heap m |}.

Definition set_heap (x : gmap loc block) (m : Miner) : Miner :=
  {| blockchain := blockchain m; mempool := mempool m; pubkey := pubkey m;
     reduce_local_diff := reduce_local_diff m;
     mining_thread := mining_thread m; target_block := target_block m;
     hashrate := hashrate m; mined_block := mined_block m;
     stop_event := stop_event m; retarget_event := retarget_event m;
     heap := x |}.

(** Reading a block through a reference.  References held by the miner
    always point at allocated blocks; the default is the value of a
    dangling reference, which the program cannot produce. *)
Definition deref (h : gmap loc block) (l : loc) : block :=
  default Block_new (h !! l).

(** Modelled from the spec: the registration methods of [Blockchain] and
    [Mempool], which are not part of the sources.  Registering adds the
    listener to the collection of the notification source, unregistering
    removes it. *)
Definition register_new_block_callback (cb : Callback) (bc : Blockchain)
  : Blockchain :=
  {| head := head bc; new_block_callbacks := new_block_callbacks bc ++ [cb] |}.

Definition unregister_new_block_callback (cb : Callback) (bc : Blockchain)
  : Blockchain :=
  {| head := head bc;
     new_block_callbacks := remove Callback_eq_dec cb (new_block_callbacks bc) |}.

Definition register_new_tx_callback (cb : Callback) (mp : Mempool) : Mempool :=
  {| transactions := transactions mp; total_fees := total_fees mp;
     new_tx_callbacks := new_tx_callbacks mp ++ [cb] |}.

Definition unregister_new_tx_callback (cb : Callback) (mp : Mempool) : Mempool :=
  {| transactions := transactions mp; total_fees := total_fees mp;
     new_tx_callbacks := remove Callback_eq_dec cb (new_tx_callbacks mp) |}.

(** ** Controller operations *)

(** What an operation leaves behind: its result (a value or an exception),
    the state of the miner afterwards, and the sequence of synchronisation
    actions it performed, in program order. *)
Inductive event : Type :=
  | EvRegisterBlockCallback
  | EvRegisterTxCallback
  | EvUnregisterBlockCallback
  | EvUnregisterTxCallback
  | EvClearStop
  | EvClearRetarget
  | EvSetStop
  | EvPublishTarget (l : loc)      (* [self.target_block = blk] under the lock *)
  | EvSetRetarget
  | EvThreadStart
  | EvThreadJoin.

Record outcome (A : Type) := {
  res : result A;
  post : Miner;
  trace : list event
}.
Arguments res {A} o.
Arguments post {A} o.
Arguments trace {A} o.

(** [Miner.__init__]; [Mempool(blockchain)] is built by the mempool module,
    so its value and the current store are passed in. *)
Definition Miner_init (bc : Blockchain) (mp : Mempool) (pk : bytes)
  (reduce : bool) (h : gmap loc block) : Miner :=
  {| blockchain := bc; mempool := mp; pubkey := pk;
     reduce_local_diff := reduce;
     mining_thread := None; target_block := None;
     hashrate := float_zero; mined_block := None;
     stop_event := false; retarget_event := false;
     heap := h |}.

Definition set_reward_address (pk : bytes) (m : Miner) : Miner :=
  set_pubkey pk m.

(** The reward of lines 181-183.  On a non-negative height and a positive
    halving length, which the class guarantees, [//] and [**] are the
    flooring division and the power of integers. *)
Definition coinbase_reward (height fees : Z) : Z :=
  INITIAL_REWARD / 2 ^ (height / REWARD_HALVING_LEN) + fees.

(** Lines 173-178: the block before the coinbase is added.  [now] is
    [int(time.time())]. *)
Definition block_template (now : Z) (m : Miner) : block :=
  let blockchain_head := head (blockchain m) in
  let blk := Block_new in
  let blk := set_parent blockchain_head blk in
  let blk := set_prev_hash (get_hash blockchain_head) blk in
  let blk := set_timestamp now blk in
  let blk := set_diff (get_next_diff blockchain_head) blk in
  add_transactions (map snd (transactions (mempool m))) blk.

(** Lines 184-190: the coinbase transaction paying [reward] to [pk], in the
    block stored at [l]; [rnd] are the four bytes of [urandom(4)]. *)
Definition make_coinbase (reward : Z) (pk : bytes) (l : loc) (rnd : bytes)
  : Transaction :=
  let coinbase_out :=
    {| amount := reward; out_pubkey := pk; out_block := Some l |} in
  let coinbase_inp := {| index := int_from_bytes_big rnd |} in
  {| inputs := [coinbase_inp]; outputs := [coinbase_out] |}.

(** Lines 173-193: the block built by [retarget], stored at [l].
    [Block.update_merkle_root] "recomputes and sets the merkle root over the
    final transaction list". *)
Definition build_block (now : Z) (rnd : bytes) (m : Miner) (l : loc) : block :=
  let blk := block_template now m in
  let reward := coinbase_reward (get_height blk) (total_fees (mempool m)) in
  let coinbase := make_coinbase reward (pubkey m) l rnd in
  let blk := txs_append coinbase blk in
  set_merkle_root (merkle_root_of (txs blk)) blk.

(** [Miner.retarget]: a new block object is allocated, filled in and, under
    the lock, installed as the target; the retarget event is set. *)
Definition retarget (now : Z) (rnd : bytes) (m : Miner) : outcome unit :=
  let l := fresh (dom (heap m)) in
  let blk := build_block now rnd m l in
  let m := set_heap (<[l := blk]> (heap m)) m in
  let m := set_target_block (Some l) m in
  let m := set_retarget_event true m in
  {| res := Ok tt; post := m; trace := [EvPublishTarget l; EvSetRetarget] |}.

(** [Miner.start_mining] *)
Definition start_mining (now : Z) (rnd : bytes) (m : Miner) : outcome unit :=
  match mining_thread m with
  | Some _ => {| res := Raise MinerIsRunningException; post := m; trace := [] |}
  | None =>
      let m := set_blockchain
                 (register_new_block_callback RetargetCallback (blockchain m)) m in
      let m := set_mempool
                 (register_new_tx_callback RetargetCallback (mempool m)) m in
      let m := set_stop_event false m in
      let m := set_retarget_event false m in
      let r := retarget now rnd m in
      let m := set_mining_thread (Some MinerThread) (post r) in
      {| res := Ok tt; post := m;
         trace := [EvRegisterBlockCallback; EvRegisterTxCallback;
                   EvClearStop; EvClearRetarget]
                  ++ trace r ++ [EvThreadStart] |}
  end.

(** [Miner.stop_mining]; whether the join timed out only shows in the log. *)
Definition stop_mining (m : Miner) : outcome unit :=
  match mining_thread m with
  | None => {| res := Raise MinerIsNotRunningException; post := m; trace := [] |}
  | Some _ =>
      let m := set_blockchain
                 (unregister_new_block_callback RetargetCallback (blockchain m)) m in
      let m := set_mempool
                 (unregister_new_tx_callback RetargetCallback (mempool m)) m in
      let m := set_stop_event true m in
      let m := set_mining_thread None m in
      {| res := Ok tt; post := m;
         trace := [EvUnregisterBlockCallback; EvUnregisterTxCallback;
                   EvSetStop; EvThreadJoin] |}
  end.

(** [Miner.get_hashrate] *)
Definition get_hashrate (m : Miner) : outcome Float :=
  match mining_thread m with
  | None => {| res := Raise MinerIsNotRunningException; post := m; trace := [] |}
  | Some _ => {| res := Ok (hashrate m); post := m; trace := [] |}
  end.

(** [Miner.get_mined_block] *)
Definition get_mined_block (m : Miner) : outcome (option loc) :=
  let blk := mined_block m in
  let m := set_mined_block None m in
  {| res := Ok blk; post := m; trace := [] |}.

(** ** The hashing thread ([Miner.mine]) *)

(** Where the thread is: at the head of the wait loop (line 117), at the
    head of the search loop (line 135), returned, or dead from an uncaught
    exception. *)
Inductive pc_state : Type :=
  | Waiting
  | Searching
  | Terminated
  | Crashed (e : exn).

(** The local variables of [mine]. *)
Record Worker := {
  pc : pc_state;
  w_nonce : Z;
  w_target_block : option loc;
  w_prefix : bytes;
  w_target_hash : Z
}.

Definition set_pc (x : pc_state) (w : Worker) : Worker :=
  {| pc := x; w_nonce := w_nonce w; w_target_block := w_target_block w;
     w_prefix := w_prefix w; w_target_hash := w_target_hash w |}.

Definition set_w_nonce (x : Z) (w : Worker) : Worker :=
  {| pc := pc w; w_nonce := x; w_target_block := w_target_block w;
     w_prefix := w_prefix w; w_target_hash := w_target_hash w |}.

Definition set_w_target_block (x : option loc) (w : Worker) : Worker :=
  {| pc := pc w; w_nonce := w_nonce w; w_target_block := x;
     w_prefix := w_prefix w; w_target_hash := w_target_hash w |}.

Definition set_w_prefix (x : bytes) (w : Worker) : Worker :=
  {| pc := pc w; w_nonce := w_nonce w; w_target_block := w_target_block w;
     w_prefix := x; w_target_hash := w_target_hash w |}.

Definition set_w_target_hash (x : Z) (w : Worker) : Worker :=
  {| pc := pc w; w_nonce := w_nonce w; w_target_block := w_target_block w;
     w_prefix := w_prefix w; w_target_hash := x |}.

(** Line 112: the thread starts with [nonce] read from [urandom(4)]; the
    other locals are not bound yet. *)
Definition mine_init (seed : bytes) : Worker :=
  {| pc := Waiting; w_nonce := int_from_bytes_big seed;
     w_target_block := None; w_prefix := []; w_target_hash := 0 |}.

(** Lines 128-130: the difficulty the threshold is computed from. *)
Definition search_diff (reduce : bool) (d : Z) : Z :=
  if reduce then Z.max (d - 10) 1 else d.

(** Line 131 *)
Definition target_hash_of (d : Z) : result Z :=
  shl_one (8 * HASH_LEN - d).

(** Lines 125-133: the thread has a target and prepares the search. *)
Definition enter_search (m : Miner) (l : loc) (w : Worker) : Worker :=
  let target_block := deref (heap m) l in
  let w := set_w_prefix (drop_last8 (serialize_header target_block)) w in
  let d := search_diff (reduce_local_diff m) (diff target_block) in
  match target_hash_of d with
  | Raise e => set_pc (Crashed e) w
  | Ok t => set_pc Searching (set_w_target_hash t w)
  end.

(** Lines 116-122, one turn of the wait loop: the target is read and the
    retarget event cleared under the lock, then the stop event is looked
    at; with a target in hand the thread goes on to lines 125-133. *)
Definition mine_wait (m : Miner) (w : Worker) : Miner * Worker :=
  let target_block := target_block m in
  let m := set_retarget_event false m in
  let w := set_w_target_block target_block w in
  if stop_event m then (m, set_pc Terminated w)
  else
    match target_block with
    | None => (m, set_pc Waiting w)
    | Some l => (m, enter_search m l w)
    end.

(** Lines 141-142: the test of one nonce. *)
Definition is_hit (prefix : bytes) (target_hash : Z) (packed : bytes) : bool :=
  int_from_bytes_big (crypto_h (prefix ++ packed)) <? target_hash.

(** Lines 140-151, the [for] loop without the bookkeeping of a hit: it
    ends on the first hit, after [count] misses, or when [struct.pack]
    raises; each time with the value [nonce] then has. *)
Inductive batch_result : Type :=
  | BatchHit (n : Z)
  | BatchDone (n : Z)
  | BatchRaise (e : exn) (n : Z).

Fixpoint batch (count : nat) (prefix : bytes) (target_hash : Z) (nonce : Z)
  : batch_result :=
  match count with
  | O => BatchDone nonce
  | S count' =>
      match pack_Q nonce with
      | Raise e => BatchRaise e nonce
      | Ok packed =>
          if is_hit prefix target_hash packed then BatchHit nonce
          else batch count' prefix target_hash (nonce + 1)
      end
  end.

(** [range(100000)] *)
Definition BATCH_SIZE : nat := Z.to_nat 100000.

(** Lines 144-149, the bookkeeping of a hit on the block at [l]: the nonce
    is stored in the block object, then, under the lock, the block is
    published, the target cleared and the retarget event set. *)
Definition publish_hit (l : loc) (n : Z) (m : Miner) : Miner :=
  let m := set_heap (alter (set_nonce n) l (heap m)) m in
  let m := set_mined_block (Some l) m in
  let m := set_target_block None m in
  set_retarget_event true m.

(** Lines 153-159, the end of a turn of the search loop: the hashrate is
    sampled from the clock readings [t0] and [t1] and stored under the
    lock, then the stop event is looked at. *)
Definition finish_batch (t0 t1 : Float) (start_nonce : Z) (m : Miner)
  (w : Worker) : Miner * Worker :=
  match hashrate_of (w_nonce w - start_nonce) t0 t1 with
  | None => (m, set_pc (Crashed ZeroDivisionError) w)
  | Some r =>
      let m := set_hashrate r m in
      if stop_event m then (m, set_pc Terminated w)
      else (m, set_pc Searching w)
  end.

(** Lines 135-159, one turn of the search loop: back to the wait loop when
    the retarget event is set, one batch of hashes otherwise. *)
Definition mine_search (t0 t1 : Float) (m : Miner) (w : Worker)
  : Miner * Worker :=
  if retarget_event m then
    (m, set_pc Waiting (set_w_target_block None w))
  else
    let start_nonce := w_nonce w in
    match batch BATCH_SIZE (w_prefix w) (w_target_hash w) (w_nonce w) with
    | BatchRaise e n => (m, set_pc (Crashed e) (set_w_nonce n w))
    | BatchDone n => finish_batch t0 t1 start_nonce m (set_w_nonce n w)
    | BatchHit n =>
        let w := set_w_nonce n w in
        match w_target_block w with
        | None => (m, set_pc (Crashed AttributeError) w)
        | Some l =>
            let m := publish_hit l n m in
            let w := set_w_target_block None w in
            finish_batch t0 t1 start_nonce m w
        end
    end.

(** One step of the thread; [t0] and [t1] are the readings of
    [time.time()] before and after the batch, if one is run. *)
Definition mine_step (t0 t1 : Float) (m : Miner) (w : Worker)
  : Miner * Worker :=
  match pc w with
  | Waiting => mine_wait m w
  | Searching => mine_search t0 t1 m w
  | Terminated | Crashed _ => (m, w)
  end.

(** The thread running on its own for as many steps as there are clock
    readings. *)
Fixpoint mine_run (clock : list (Float * Float)) (m : Miner) (w : Worker)
  : Miner * Worker :=
  match clock with
  | [] => (m, w)
  | (t0, t1) :: clock' =>
      let '(m', w') := mine_step t0 t1 m w in mine_run clock' m' w'
  end.

(** The references held by the miner and by the thread point at allocated
    blocks. *)
Definition refs_allocated (m : Miner) (w : Worker) : Prop :=
  (forall l, target_block m = Some l -> is_Some (heap m !! l)) /\
  (forall l, mined_block m = Some l -> is_Some (heap m !! l)) /\
  (forall l, w_target_block w = Some l -> is_Some (heap m !! l)).

(** ** The miner and its thread together

    The design has one hashing thread beside the callers of the controller:
    a system is the miner, the thread of the last successful start if there
    was one, and, for the record, the blocks handed out by
    [get_mined_block] so far, latest first.  A successful start begins a
    new thread; the thread of an earlier start is taken to have ended by
    then (the join of [stop_mining] did not run into its timeout). *)
Record System := {
  sys_miner : Miner;
  sys_thread : option Worker;
  sys_taken : list loc
}.

(** What can happen next: a call of the controller, with the values it
    reads from the clock and from [urandom], or a step of the thread. *)
Inductive action : Type :=
  | DoRetarget (now : Z) (rnd : bytes)
  | DoStart (now : Z) (rnd seed : bytes)
  | DoStop
  | DoGetHashrate
  | DoGetMinedBlock
  | DoThreadStep (t0 t1 : Float).

Definition sys_step (s : System) (a : action) : System :=
  match a with
  | DoRetarget now rnd =>
      {| sys_miner := post (retarget now rnd (sys_miner s));
         sys_thread := sys_thread s; sys_taken := sys_taken s |}
  | DoStart now rnd seed =>
      let o := start_mining now rnd (sys_miner s) in
      {| sys_miner := post o;
         sys_thread := match res o with
                       | Ok _ => Some (mine_init seed)
                       | Raise _ => sys_thread s
                       end;
         sys_taken := sys_taken s |}
  | DoStop =>
      {| sys_miner := post (stop_mining (sys_miner s));
         sys_thread := sys_thread s; sys_taken := sys_taken s |}
  | DoGetHashrate =>
      {| sys_miner := post (get_hashrate (sys_miner s));
         sys_thread := sys_thread s; sys_taken := sys_taken s |}
  | DoGetMinedBlock =>
      let o := get_mined_block (sys_miner s) in
      {| sys_miner := post o;
         sys_thread := sys_thread s;
         sys_taken := match res o with
                      | Ok (Some l) => l :: sys_taken s
                      | _ => sys_taken s
                      end |}
  | DoThreadStep t0 t1 =>
      match sys_thread s with
      | None => s
      | Some w =>
          let '(m', w') := mine_step t0 t1 (sys_miner s) w in
          {| sys_miner := m'; sys_thread := Some w';
             sys_taken := sys_taken s |}
      end
  end.

Definition sys_run (s : System) (acts : list action) : System :=
  fold_left sys_step acts s.

(** A miner fresh from [Miner_init], no thread yet, nothing handed out. *)
Definition sys_init (bc : Blockchain) (mp : Mempool) (pk : bytes)
  (reduce : bool) (h : gmap loc block) : System :=
  {| sys_miner := Miner_init bc mp pk reduce h;
     sys_thread := None; sys_taken := [] |}.

(** [k] calls of [get_mined_block] in a row: what they return, and the
    miner afterwards. *)
Fixpoint take_blocks (k : nat) (m : Miner) : list (result (option loc)) * Miner :=
  match k with
  | O => ([], m)
  | S k' =>
      let o := get_mined_block m in
      let '(rs, m') := take_blocks k' (post o) in
      (res o :: rs, m')
  end.

(** The block the thread of a system holds, if any. *)
Definition thread_target (s : System) : option loc :=
  match sys_thread s with
  | Some w => w_target_block w
  | None => None
  end.

(** What holds of a system all along: every reference points at an
    allocated block; a block that was handed out is referred to neither by
    the miner nor by the thread; the published block is not a target any
    more; and no block was handed out twice. *)
Definition sys_inv (s : System) : Prop :=
  let m := sys_miner s in
  (forall l,
     target_block m = Some l \/ mined_block m = Some l \/
     thread_target s = Some l \/ l ∈ sys_taken s ->
     is_Some (heap m !! l)) /\
  (forall l, l ∈ sys_taken s ->
     target_block m <> Some l /\ mined_block m <> Some l /\
     thread_target s <> Some l) /\
  (forall l, mined_block m = Some l ->
     target_block m <> Some l /\ thread_target s <> Some l) /\
  NoDup (sys_taken s).

(** The thread can move from [w] to [w'], whatever the state of the miner
    object it finds and whatever the clock shows. *)
Definition thread_step (w w' : Worker) : Prop :=
  exists t0 t1 m, snd (mine_step t0 t1 m w) = w'.

End Miner.

Arguments res {E A} o.
Arguments post {E A} o.
Arguments trace {E A} o.

(** ** A small instance

    A toy set of collaborators to run the definitions on: two-byte digests,
    a chain head that is the pair of its height and the next difficulty,
    and integers for clock readings. *)

Definition toy_h (bs : bytes) : bytes :=
  to_bytes_big 2 (7 * int_from_bytes_big bs + 3).

Definition toy_height (b : Block (N * Z)) : Z :=
  Z.of_N (match parent b with
          | Some hd => fst hd + 1
          | None => 0
          end).

Definition toy_header (b : Block (N * Z)) : bytes :=
  to_bytes_big 4 (timestamp b) ++ to_bytes_big 8 (nonce b).

Definition toy_hashrate (n t0 t1 : Z) : option Z :=
  if t1 - t0 =? 0 then None else Some (n / (t1 - t0)).

Definition Toy : Collaborators :=
  {| ChainHead := N * Z;
     Float := Z;
     HASH_LEN := 2;
     crypto_h := toy_h;
     INITIAL_REWARD := 50;
     REWARD_HALVING_LEN := 4;
     get_next_diff := snd;
     get_hash := fun hd => to_bytes_big 2 (Z.of_N (fst hd));
     get_height := toy_height;
     serialize_header := toy_header;
     merkle_root_of := fun ts => to_bytes_big 1 (Z.of_nat (length ts));
     float_zero := 0;
     hashrate_of := toy_hashrate;
     REWARD_HALVING_LEN_pos := eq_refl;
     get_height_nonneg := fun b => N2Z.is_nonneg _ |}.

(** A miner on [Toy] whose chain head has height [height] and asks for
    difficulty [d] next, with the pending transactions [pending]. *)
Definition toy_miner (height : N) (d : Z) (reduce : bool)
  (pending : list (bytes * Transaction)) (fees : Z) : @Miner Toy :=
  Miner_init (E := Toy)
    (@Build_Blockchain Toy (height, d) [])
    (Build_Mempool pending fees [])
    [x01; x02] reduce ∅.

Definition toy_seed : bytes := [x00; x00; x00; x2a].

Definition zero_seed : bytes := [x00; x00; x00; x00].

(** The miner after [start_mining] on an empty mempool, with the head at
    height 0 asking for difficulty [d]. *)
Definition toy_started (d : Z) (reduce : bool) : @Miner Toy :=
  post (start_mining 1000 toy_seed (toy_miner 0 d reduce [] 0)).

(** The thread of [toy_started 13 false] after its first step, which picks
    up the target, and the miner as that step leaves it. *)
Definition toy_searching : @Miner Toy * Worker :=
  mine_step (E := Toy) 0 0 (toy_started 13 false) (mine_init zero_seed).

(** A pending transaction without outputs. *)
Definition toy_tx : Transaction :=
  {| inputs := [{| index := 5 |}]; outputs := [] |}.

(** A miner with [toy_tx] pending, paying a fee of 2. *)
Definition toy_pending : @Miner Toy :=
  toy_miner 0 13 false [([x07], toy_tx)] 2.

(** [stop_mining] is called while the thread of [toy_searching] is in its
    search. *)
Definition toy_stopping : @Miner Toy := post (stop_mining (fst toy_searching)).

(** ** Further notions used below *)

(** The thread has left [mine]: it returned or died. *)
Definition ended (w : Worker) : bool :=
  match pc w with
  | Terminated | Crashed _ => true
  | Waiting | Searching => false
  end.

(** [Toy] with a hash whose digest is always [0xffff]: no nonce is ever a
    hit for a difficulty of at least 1. *)
Definition Stubborn : Collaborators :=
  {| ChainHead := N * Z;
     Float := Z;
     HASH_LEN := 2;
     crypto_h := fun _ => [xff; xff];
     INITIAL_REWARD := 50;
     REWARD_HALVING_LEN := 4;
     get_next_diff := snd;
     get_hash := fun hd => to_bytes_big 2 (Z.of_N (fst hd));
     get_height := toy_height;
     serialize_header := toy_header;
     merkle_root_of := fun ts => to_bytes_big 1 (Z.of_nat (length ts));
     float_zero := 0;
     hashrate_of := toy_hashrate;
     REWARD_HALVING_LEN_pos := eq_refl;
     get_height_nonneg := fun b => N2Z.is_nonneg _ |}.

(** The miner on [Stubborn] after [start_mining], and its thread after the
    step that picks up the target. *)
Definition stubborn_started : @Miner Stubborn :=
  post (start_mining 1000 toy_seed
          (Miner_init (E := Stubborn)
             (@Build_Blockchain Stubborn (0%N, 13) [])
             (Build_Mempool [] 0 []) [x01; x02] false ∅)).

Definition stubborn_searching : @Miner Stubborn * Worker :=
  mine_step (E := Stubborn) 0 0 stubborn_started (mine_init toy_seed).

(** * Properties *)

(** ** Bytes and integers *)

Lemma byte_val_range b : 0 <= byte_val b < 256.
Proof.
  unfold byte_val. pose proof (Byte.to_N_bounded b) as Hb. lia.
Qed.

Lemma byte_val_of_Z z : byte_val (byte_of_Z z) = z mod 256.
Proof.
  unfold byte_val, byte_of_Z.
  assert (Hr : 0 <= z mod 256 < 256) by (apply Z.mod_pos_bound; lia).
  destruct (Byte.of_N (Z.to_N (z mod 256))) as [b|] eqn:E.
  - apply Byte.to_of_N in E. rewrite E. lia.
  - apply Byte.of_N_None_iff in E. lia.
Qed.

Lemma int_from_bytes_big_app bs cs :
  int_from_bytes_big (bs ++ cs) =
  int_from_bytes_big bs * 256 ^ Z.of_nat (length cs) + int_from_bytes_big cs.
Proof.
  unfold int_from_bytes_big.
  rewrite fold_left_app.
  generalize (fold_left (fun acc b => acc * 256 + byte_val b) bs 0) as a.
  induction cs as [|c cs IH]; intros a.
  - simpl. lia.
  - cbn [fold_left length]. rewrite IH, (IH (0 * 256 + byte_val c)).
    rewrite Nat2Z.inj_succ, Z.pow_succ_r by lia. lia.
Qed.

Lemma length_to_bytes_big len n : length (to_bytes_big len n) = len.
Proof.
  revert n. induction len as [|len IH]; intros n; simpl; [done|].
  rewrite length_app, IH. simpl. lia.
Qed.

Lemma int_from_to_bytes_big len n :
  int_from_bytes_big (to_bytes_big len n) = n mod 256 ^ Z.of_nat len.
Proof.
  revert n. induction len as [|len IH]; intros n.
  - simpl. rewrite Z.mod_1_r. reflexivity.
  - cbn [to_bytes_big]. rewrite int_from_bytes_big_app, IH.
    change (Z.of_nat (length [byte_of_Z (n mod 256)])) with 1.
    rewrite Z.pow_1_r.
    change (int_from_bytes_big [byte_of_Z (n mod 256)])
      with (0 * 256 + byte_val (byte_of_Z (n mod 256))).
    rewrite byte_val_of_Z, Z.mod_mod by lia.
    rewrite Nat2Z.inj_succ, Z.pow_succ_r by lia.
    rewrite (Z.rem_mul_r n 256 (256 ^ Z.of_nat len)) by lia.
    lia.
Qed.

Lemma int_from_bytes_big_nonneg bs : 0 <= int_from_bytes_big bs.
Proof.
  induction bs as [|b bs IH] using rev_ind.
  - reflexivity.
  - rewrite int_from_bytes_big_app.
    change (int_from_bytes_big [b]) with (0 * 256 + byte_val b).
    pose proof (byte_val_range b). simpl length. nia.
Qed.

Lemma int_from_bytes_big_bound bs :
  int_from_bytes_big bs < 256 ^ Z.of_nat (length bs).
Proof.
  induction bs as [|b bs IH] using rev_ind.
  - reflexivity.
  - rewrite int_from_bytes_big_app, length_app.
    change (int_from_bytes_big [b]) with (0 * 256 + byte_val b).
    pose proof (byte_val_range b). simpl length.
    rewrite Nat2Z.inj_add, Z.pow_add_r by lia.
    change (256 ^ Z.of_nat 1) with 256. nia.
Qed.

Lemma byte_of_Z_val b : byte_of_Z (byte_val b) = b.
Proof.
  unfold byte_of_Z. rewrite Z.mod_small by apply byte_val_range.
  unfold byte_val. rewrite N2Z.id, Byte.of_to_N. reflexivity.
Qed.

Lemma to_bytes_big_from_bytes bs :
  to_bytes_big (length bs) (int_from_bytes_big bs) = bs.
Proof.
  induction bs as [|b bs IH] using rev_ind; [reflexivity|].
  rewrite length_app, Nat.add_comm. cbn [length Nat.add to_bytes_big].
  rewrite int_from_bytes_big_app.
  change (int_from_bytes_big [b]) with (0 * 256 + byte_val b).
  change (256 ^ Z.of_nat (length [b])) with 256.
  pose proof (byte_val_range b) as Hb.
  replace ((int_from_bytes_big bs * 256 + (0 * 256 + byte_val b)) / 256)
    with (int_from_bytes_big bs)
    by (apply Z.div_unique with (r := byte_val b); lia).
  replace ((int_from_bytes_big bs * 256 + (0 * 256 + byte_val b)) mod 256)
    with (byte_val b)
    by (apply Z.mod_unique with (q := int_from_bytes_big bs); lia).
  rewrite IH, byte_of_Z_val. reflexivity.
Qed.

Lemma int_from_bytes_big_inj bs cs :
  length bs = length cs ->
  int_from_bytes_big bs = int_from_bytes_big cs -> bs = cs.
Proof.
  intros Hlen Hint.
  rewrite <- (to_bytes_big_from_bytes bs), <- (to_bytes_big_from_bytes cs).
  rewrite Hlen, Hint. reflexivity.
Qed.

Lemma pack_Q_in_range n :
  0 <= n < 2 ^ 64 -> pack_Q n = Ok (to_bytes_big 8 n).
Proof.
  intros [H0 H1]. unfold pack_Q.
  destruct (Z.leb_spec 0 n); [|lia].
  destruct (Z.ltb_spec n (2 ^ 64)); [|lia]. reflexivity.
Qed.

Lemma pack_Q_out_of_range n :
  ~ (0 <= n < 2 ^ 64) -> pack_Q n = Raise StructError.
Proof.
  intros H. unfold pack_Q.
  destruct (Z.leb_spec 0 n); destruct (Z.ltb_spec n (2 ^ 64));
    simpl; try reflexivity; lia.
Qed.

Lemma pack_Q_inv n packed :
  pack_Q n = Ok packed ->
  0 <= n < 2 ^ 64 /\ length packed = 8%nat /\ int_from_bytes_big packed = n.
Proof.
  intros H.
  destruct (decide (0 <= n < 2 ^ 64)) as [Hn|Hn].
  - rewrite (pack_Q_in_range n Hn) in H.
    assert (packed = to_bytes_big 8 n) as -> by congruence.
    split; [exact Hn|]. split.
    + apply length_to_bytes_big.
    + rewrite int_from_to_bytes_big.
      change (256 ^ Z.of_nat 8) with (2 ^ 64). apply Z.mod_small. exact Hn.
  - rewrite (pack_Q_out_of_range n Hn) in H. discriminate.
Qed.

Lemma pack_Q_raises n e : pack_Q n = Raise e -> e = StructError.
Proof.
  unfold pack_Q. destruct ((0 <=? n) && (n <? 2 ^ 64)); congruence.
Qed.

Lemma shl_one_nonneg k : 0 <= k -> shl_one k = Ok (2 ^ k).
Proof.
  intros Hk. unfold shl_one.
  destruct (Z.ltb_spec k 0); [lia|].
  rewrite Z.shiftl_1_l. reflexivity.
Qed.


(** ** The search loop *)

Section Search.
Context {E : Collaborators}.

Lemma search_diff_reduced d :
  search_diff true d = (if d <=? 11 then 1 else d - 10).
Proof. unfold search_diff. destruct (Z.leb_spec d 11); lia. Qed.

Lemma is_hit_spec prefix t packed :
  is_hit prefix t packed = true <->
  int_from_bytes_big (crypto_h (prefix ++ packed)) < t.
Proof. unfold is_hit. apply Z.ltb_lt. Qed.

Lemma batch_first count prefix t n packed :
  pack_Q n = Ok packed ->
  batch (S count) prefix t n =
  if is_hit prefix t packed then BatchHit n
  else batch count prefix t (n + 1).
Proof. intros H. simpl. rewrite H. reflexivity. Qed.

(** A hit reported by a batch is a nonce of the batch whose digest is below
    the threshold, and every nonce before it missed. *)
Lemma batch_hit_sound count prefix t n0 n :
  batch count prefix t n0 = BatchHit n ->
  n0 <= n < n0 + Z.of_nat count /\
  (exists packed, pack_Q n = Ok packed /\ is_hit prefix t packed = true) /\
  (forall k, n0 <= k < n ->
     exists packed, pack_Q k = Ok packed /\ is_hit prefix t packed = false).
Proof.
  revert n0. induction count as [|count IH]; intros n0 H; [discriminate|].
  cbn [batch] in H.
  destruct (pack_Q n0) as [packed|e] eqn:Hp; [|discriminate].
  destruct (is_hit prefix t packed) eqn:Hh.
  - injection H as <-. split; [lia|]. split; [eauto|]. intros k Hk. lia.
  - apply IH in H as (Hr & Hn & Hbefore). split; [lia|]. split; [exact Hn|].
    intros k Hk. destruct (Z.eq_dec k n0) as [->|Hne]; [eauto|].
    apply Hbefore. lia.
Qed.

(** A batch without a hit tests [count] nonces and leaves the counter
    behind the last of them. *)
Lemma batch_all_miss count prefix t n0 :
  0 <= n0 -> n0 + Z.of_nat count <= 2 ^ 64 ->
  (forall k, n0 <= k < n0 + Z.of_nat count ->
     is_hit prefix t (to_bytes_big 8 k) = false) ->
  batch count prefix t n0 = BatchDone (n0 + Z.of_nat count).
Proof.
  revert n0. induction count as [|count IH]; intros n0 H0 Hmax Hmiss.
  - cbn [batch]. f_equal. lia.
  - cbn [batch]. rewrite pack_Q_in_range by lia.
    rewrite Hmiss by lia. rewrite IH; [f_equal; lia|lia|lia|].
    intros k Hk. apply Hmiss. lia.
Qed.

(** The counter a batch ends with is never below the one it started with. *)
Lemma batch_nonce_mono count prefix t n0 :
  match batch count prefix t n0 with
  | BatchHit n | BatchDone n | BatchRaise _ n => n0 <= n
  end.
Proof.
  revert n0. induction count as [|count IH]; intros n0; cbn [batch]; [lia|].
  destruct (pack_Q n0); [|lia].
  destruct (is_hit prefix t a); [lia|].
  specialize (IH (n0 + 1)).
  destruct (batch count prefix t (n0 + 1)); lia.
Qed.

Lemma enter_search_threshold (m : Miner) l w d :
  search_diff (reduce_local_diff m) (diff (deref (heap m) l)) = d ->
  d <= 8 * HASH_LEN ->
  pc (enter_search m l w) = Searching /\
  w_target_hash (enter_search m l w) = 2 ^ (8 * HASH_LEN - d).
Proof.
  intros Hd Hle. unfold enter_search, target_hash_of. rewrite Hd.
  rewrite shl_one_nonneg by lia. split; reflexivity.
Qed.



(** C8: with [reduce_local_diff] the threshold of the search is computed
    from [max (d - 10) 1], where [d] is the difficulty of the target block,
    that is from [d - 10] above 11 and from 1 up to 11; without it, from
    [d] itself. *)
Theorem reduced_difficulty (m : Miner) (l : loc) (w : Worker) :
  let d := diff (deref (heap m) l) in
  let d_eff := if reduce_local_diff m then Z.max (d - 10) 1 else d in
  search_diff (reduce_local_diff m) d = d_eff /\
  search_diff true d = (if d <=? 11 then 1 else d - 10) /\
  1 <= search_diff true d /\
  search_diff false d = d /\
  pc (enter_search m l w) =
    match shl_one (8 * HASH_LEN - d_eff) with
    | Ok _ => Searching
    | Raise e => Crashed e
    end /\
  (forall t, shl_one (8 * HASH_LEN - d_eff) = Ok t ->
     w_target_hash (enter_search m l w) = t /\
     t = 2 ^ (8 * HASH_LEN - d_eff)).
Proof.
  intros d d_eff.
  assert (Hs : search_diff (reduce_local_diff m) d = d_eff) by reflexivity.
  split; [exact Hs|]. split; [apply search_diff_reduced|].
  split; [unfold search_diff; lia|]. split; [reflexivity|].
  unfold enter_search, target_hash_of. fold d. rewrite Hs. split.
  - destruct (shl_one (8 * HASH_LEN - d_eff)); reflexivity.
  - intros t Ht. rewrite Ht. split; [reflexivity|].
    unfold shl_one in Ht. destruct (Z.ltb_spec (8 * HASH_LEN - d_eff) 0);
      [discriminate|].
    assert (t = Z.shiftl 1 (8 * HASH_LEN - d_eff)) as -> by congruence.
    apply Z.shiftl_1_l.
Qed.

(** *** The nonce counter *)

Lemma w_nonce_enter_search (m : Miner) l w :
  w_nonce (enter_search m l w) = w_nonce w.
Proof.
  unfold enter_search. destruct (target_hash_of _); reflexivity.
Qed.

Lemma mine_wait_nonce (m : Miner) w :
  w_nonce (snd (mine_wait m w)) = w_nonce w.
Proof.
  unfold mine_wait. cbn [stop_event set_retarget_event].
  destruct (stop_event m); [reflexivity|].
  destruct (target_block m); [|reflexivity].
  cbn [snd]. rewrite w_nonce_enter_search. reflexivity.
Qed.

Lemma finish_batch_nonce t0 t1 s (m : Miner) w :
  w_nonce (snd (finish_batch t0 t1 s m w)) = w_nonce w.
Proof.
  unfold finish_batch. destruct (hashrate_of _ t0 t1); [|reflexivity].
  cbn [stop_event set_hashrate]. destruct (stop_event m); reflexivity.
Qed.

Lemma mine_search_nonce_mono t0 t1 (m : Miner) w :
  w_nonce w <= w_nonce (snd (mine_search t0 t1 m w)).
Proof.
  unfold mine_search. destruct (retarget_event m); [simpl; lia|].
  pose proof (batch_nonce_mono BATCH_SIZE (w_prefix w) (w_target_hash w)
                (w_nonce w)) as Hb.
  destruct (batch BATCH_SIZE (w_prefix w) (w_target_hash w) (w_nonce w))
    as [n|n|e n].
  - cbn [w_target_block set_w_nonce].
    destruct (w_target_block w); [|exact Hb].
    rewrite finish_batch_nonce. exact Hb.
  - rewrite finish_batch_nonce. exact Hb.
  - exact Hb.
Qed.

Lemma mine_step_nonce_mono t0 t1 (m : Miner) w :
  w_nonce w <= w_nonce (snd (mine_step t0 t1 m w)).
Proof.
  unfold mine_step. destruct (pc w).
  - rewrite mine_wait_nonce. lia.
  - apply mine_search_nonce_mono.
  - simpl. lia.
  - simpl. lia.
Qed.

Lemma thread_step_nonce_mono w w' :
  thread_step w w' -> w_nonce w <= w_nonce w'.
Proof.
  intros (t0 & t1 & m & <-). apply mine_step_nonce_mono.
Qed.

Lemma thread_steps_nonce_mono w w' :
  rtc thread_step w w' -> w_nonce w <= w_nonce w'.
Proof.
  induction 1 as [w|w w1 w2 Hstep _ IH]; [lia|].
  apply thread_step_nonce_mono in Hstep. lia.
Qed.

Lemma mine_init_nonce_range seed :
  length seed = 4%nat -> 0 <= w_nonce (mine_init seed) < 2 ^ 32.
Proof.
  intros Hlen. cbn [w_nonce mine_init]. split.
  - apply int_from_bytes_big_nonneg.
  - pose proof (int_from_bytes_big_bound seed) as Hb. rewrite Hlen in Hb.
    exact Hb.
Qed.

Lemma BATCH_SIZE_succ : BATCH_SIZE = S (Z.to_nat 99999).
Proof.
  unfold BATCH_SIZE. change 100000 with (Z.succ 99999).
  apply Z2Nat.inj_succ. lia.
Qed.

Lemma mine_search_struct_error t0 t1 (m : Miner) w :
  retarget_event m = false ->
  ~ (0 <= w_nonce w < 2 ^ 64) ->
  mine_search t0 t1 m w =
  (m, set_pc (Crashed StructError) (set_w_nonce (w_nonce w) w)).
Proof.
  intros Hr Hn. unfold mine_search. rewrite Hr, BATCH_SIZE_succ.
  cbn [batch]. rewrite (pack_Q_out_of_range _ Hn). reflexivity.
Qed.

(** C9 (as amended): the counter starts at the value of the four seed
    bytes read as a big-endian unsigned integer, so below [2 ^ 32]: the
    seed can be read back from the start value, and two seeds that give
    the same start are the same seed.  No step of the thread ever lowers
    the counter, and neither picking up a target nor leaving a search on a
    retarget changes it; a counter value in [[0, 2 ^ 64)] is hashed as the
    prefix followed by its eight big-endian bytes; nothing reduces the
    counter modulo [2 ^ 64], and packing a value outside that range raises
    [struct.error], which ends the batch and, uncaught, the thread. *)
Theorem nonce_counter (seed : bytes) (w : Worker) :
  length seed = 4%nat ->
  rtc thread_step (mine_init seed) w ->
  w_nonce (mine_init seed) = int_from_bytes_big seed /\
  to_bytes_big 4 (w_nonce (mine_init seed)) = seed /\
  (forall b0 b1 b2 b3, seed = [b0; b1; b2; b3] ->
     w_nonce (mine_init seed) =
     byte_val b0 * 2 ^ 24 + byte_val b1 * 2 ^ 16 + byte_val b2 * 2 ^ 8
     + byte_val b3) /\
  (forall seed', length seed' = 4%nat ->
     w_nonce (mine_init seed') = w_nonce (mine_init seed) -> seed' = seed) /\
  pc (mine_init seed) = Waiting /\
  0 <= w_nonce (mine_init seed) < 2 ^ 32 /\
  w_nonce (mine_init seed) <= w_nonce w /\
  (forall w', thread_step w w' -> w_nonce w <= w_nonce w') /\
  (forall m : Miner, w_nonce (snd (mine_wait m w)) = w_nonce w) /\
  (forall t0 t1 (m : Miner), retarget_event m = true ->
     w_nonce (snd (mine_search t0 t1 m w)) = w_nonce w) /\
  (forall n prefix t count, 0 <= n < 2 ^ 64 ->
     exists packed,
       pack_Q n = Ok packed /\ length packed = 8%nat /\
       int_from_bytes_big packed = n /\
       batch (S count) prefix t n =
       if int_from_bytes_big (crypto_h (prefix ++ packed)) <? t
       then BatchHit n else batch count prefix t (n + 1)) /\
  (forall n prefix t count, ~ (0 <= n < 2 ^ 64) ->
     pack_Q n = Raise StructError /\
     batch (S count) prefix t n = BatchRaise StructError n) /\
  (forall t0 t1 (m : Miner),
     pc w = Searching -> retarget_event m = false -> 2 ^ 64 <= w_nonce w ->
     fst (mine_step t0 t1 m w) = m /\
     pc (snd (mine_step t0 t1 m w)) = Crashed StructError).
Proof.
  intros Hlen Hreach.
  split; [reflexivity|].
  split.
  { cbn [w_nonce mine_init]. rewrite <- Hlen at 1.
    apply to_bytes_big_from_bytes. }
  split.
  { intros b0 b1 b2 b3 ->. cbn [w_nonce mine_init].
    unfold int_from_bytes_big. cbn [fold_left]. lia. }
  split.
  { intros seed' Hlen' Heq. cbn [w_nonce mine_init] in Heq.
    apply int_from_bytes_big_inj; congruence. }
  split; [reflexivity|].
  split; [apply mine_init_nonce_range, Hlen|].
  split; [apply thread_steps_nonce_mono, Hreach|].
  split; [intros w'; apply thread_step_nonce_mono|].
  split; [intros m; apply mine_wait_nonce|].
  split.
  { intros t0 t1 m Hr. unfold mine_search. rewrite Hr. reflexivity. }
  split.
  { intros n prefix t count Hn. exists (to_bytes_big 8 n).
    pose proof (pack_Q_in_range n Hn) as Hp.
    destruct (pack_Q_inv n _ Hp) as (_ & Hl & Hv).
    split; [exact Hp|]. split; [exact Hl|]. split; [exact Hv|].
    apply batch_first, Hp. }
  split.
  - intros n prefix t count Hn.
    pose proof (pack_Q_out_of_range n Hn) as Hp.
    split; [exact Hp|]. cbn [batch]. rewrite Hp. reflexivity.
  - intros t0 t1 m Hpc Hr Hn. unfold mine_step. rewrite Hpc.
    rewrite mine_search_struct_error by (trivial; lia).
    split; reflexivity.
Qed.

(** *** A hit *)

Lemma publish_hit_heap (m : Miner) l n :
  heap (publish_hit l n m) !! l = set_nonce n <$> heap m !! l /\
  (forall l', l' <> l -> heap (publish_hit l n m) !! l' = heap m !! l').
Proof.
  cbn [publish_hit heap set_retarget_event set_target_block set_mined_block
       set_heap]. split.
  - apply lookup_alter_eq.
  - intros l' Hne. apply lookup_alter_ne. congruence.
Qed.

Lemma mine_search_hit t0 t1 (m : Miner) w l n :
  retarget_event m = false ->
  w_target_block w = Some l ->
  batch BATCH_SIZE (w_prefix w) (w_target_hash w) (w_nonce w) = BatchHit n ->
  mine_search t0 t1 m w =
  finish_batch t0 t1 (w_nonce w) (publish_hit l n m)
    (set_w_target_block None (set_w_nonce n w)).
Proof.
  intros Hr Hl Hb. unfold mine_search. rewrite Hr, Hb.
  cbn [w_target_block set_w_nonce]. rewrite Hl. reflexivity.
Qed.

(** C3 (as amended): whenever a batch of the search finds a hit [n] for
    the block at [l], the nonce [n] is stored in that block object, the
    block is published as [mined_block], [target_block] is cleared and the
    retarget event is set, and nothing else of the miner changes at that
    point: this holds of every hit, whatever the clock shows.  The turn
    then ends as every turn does.  If the hashrate sample can be computed
    it is stored on top of the update, and the thread returns if the stop
    event is set; otherwise its next step takes it back to the wait loop.
    If the sample cannot be computed, the update stays as it is and the
    thread dies with [ZeroDivisionError]. *)
Theorem hit_publishes_block (t0 t1 : Float) (m : Miner) (w : Worker)
  (l : loc) (n : Z) :
  pc w = Searching ->
  retarget_event m = false ->
  w_target_block w = Some l ->
  batch BATCH_SIZE (w_prefix w) (w_target_hash w) (w_nonce w) = BatchHit n ->
  let m1 := publish_hit l n m in
  let m2 := fst (mine_step t0 t1 m w) in
  let w2 := snd (mine_step t0 t1 m w) in
  let rate := hashrate_of (n - w_nonce w) t0 t1 in
  m1 = {| blockchain := blockchain m; mempool := mempool m;
          pubkey := pubkey m; reduce_local_diff := reduce_local_diff m;
          mining_thread := mining_thread m;
          target_block := None;
          hashrate := hashrate m;
          mined_block := Some l;
          stop_event := stop_event m;
          retarget_event := true;
          heap := alter (set_nonce n) l (heap m) |} /\
  heap m1 !! l = set_nonce n <$> heap m !! l /\
  (forall l', l' <> l -> heap m1 !! l' = heap m !! l') /\
  m2 = match rate with
       | Some r => set_hashrate r m1
       | None => m1
       end /\
  (heap m2 = alter (set_nonce n) l (heap m) /\
   mined_block m2 = Some l /\
   target_block m2 = None /\
   retarget_event m2 = true /\
   blockchain m2 = blockchain m /\ mempool m2 = mempool m /\
   pubkey m2 = pubkey m /\ reduce_local_diff m2 = reduce_local_diff m /\
   mining_thread m2 = mining_thread m /\ stop_event m2 = stop_event m) /\
  w_target_block w2 = None /\
  w_nonce w2 = n /\
  pc w2 = match rate with
          | Some _ => if stop_event m then Terminated else Searching
          | None => Crashed ZeroDivisionError
          end /\
  (forall r, rate = Some r ->
     m2 = set_hashrate r m1 /\
     (stop_event m = false ->
      forall t0' t1', mine_step t0' t1' m2 w2 = (m2, set_pc Waiting w2))) /\
  (rate = None ->
     m2 = m1 /\ forall t0' t1', mine_step t0' t1' m2 w2 = (m2, w2)).
Proof.
  intros Hpc Hr Hl Hb m1 m2 w2 rate.
  assert (Hstep : mine_step t0 t1 m w =
            (match rate with
             | Some r => set_hashrate r m1
             | None => m1
             end,
             set_pc (match rate with
                     | Some _ =>
                         if stop_event m then Terminated else Searching
                     | None => Crashed ZeroDivisionError
                     end)
               (set_w_target_block None (set_w_nonce n w)))).
  { unfold mine_step. rewrite Hpc, (mine_search_hit t0 t1 m w l n Hr Hl Hb).
    unfold finish_batch. cbn [w_nonce set_w_target_block set_w_nonce].
    fold rate. fold m1. destruct rate as [r|]; [|reflexivity].
    change (stop_event (set_hashrate r m1)) with (stop_event m).
    destruct (stop_event m); reflexivity. }
  subst m2 w2. rewrite Hstep. cbn [fst snd].
  split; [reflexivity|].
  destruct (publish_hit_heap m l n) as [Hh1 Hh2].
  split; [exact Hh1|]. split; [exact Hh2|].
  split; [reflexivity|].
  split; [destruct rate; repeat split; reflexivity|].
  split; [reflexivity|]. split; [reflexivity|].
  split; [reflexivity|].
  split.
  - intros r ->. split; [reflexivity|].
    intros Hstop t0' t1'. rewrite Hstop. unfold mine_step. cbn [pc set_pc].
    unfold mine_search.
    change (retarget_event (set_hashrate r m1)) with true. cbn iota.
    reflexivity.
  - intros ->. split; reflexivity.
Qed.

End Search.

(** ** The controller *)

Section Controller.
Context {E : Collaborators}.

Lemma retarget_post now rnd (m : Miner) :
  post (retarget now rnd m) =
  {| blockchain := blockchain m; mempool := mempool m; pubkey := pubkey m;
     reduce_local_diff := reduce_local_diff m;
     mining_thread := mining_thread m;
     target_block := Some (fresh (dom (heap m)));
     hashrate := hashrate m;
     mined_block := mined_block m;
     stop_event := stop_event m;
     retarget_event := true;
     heap := <[fresh (dom (heap m)) :=
                 build_block now rnd m (fresh (dom (heap m)))]> (heap m) |}.
Proof. reflexivity. Qed.

Lemma fresh_block_unused (m : Miner) : heap m !! fresh (dom (heap m)) = None.
Proof. apply not_elem_of_dom, is_fresh. Qed.

(** The candidate that [retarget] installs. *)
Lemma retarget_candidate now rnd (m : Miner) :
  let l := fresh (dom (heap m)) in
  target_block (post (retarget now rnd m)) = Some l /\
  heap (post (retarget now rnd m)) !! l = Some (build_block now rnd m l).
Proof.
  intros l. rewrite retarget_post. cbn [target_block heap].
  split; [reflexivity|]. apply lookup_insert_eq.
Qed.

Lemma build_block_txs now rnd (m : Miner) l :
  txs (build_block now rnd m l) =
  map snd (transactions (mempool m)) ++
  [make_coinbase
     (coinbase_reward (get_height (block_template now m))
        (total_fees (mempool m)))
     (pubkey m) l rnd].
Proof. reflexivity. Qed.

(** C2 (as amended): in the candidate installed by a retarget the coinbase
    transaction is appended to the transaction list: the pending
    transactions come first, in the order of the mempool, and the coinbase
    is the last element. *)
Theorem coinbase_is_last (now : Z) (rnd : bytes) (m : Miner) :
  exists l blk coinbase,
    target_block (post (retarget now rnd m)) = Some l /\
    heap (post (retarget now rnd m)) !! l = Some blk /\
    coinbase =
      make_coinbase
        (coinbase_reward (get_height (block_template now m))
           (total_fees (mempool m)))
        (pubkey m) l rnd /\
    txs blk = map snd (transactions (mempool m)) ++ [coinbase] /\
    last (txs blk) = Some coinbase /\
    txs blk !! length (transactions (mempool m)) = Some coinbase.
Proof.
  destruct (retarget_candidate now rnd m) as [Ht Hh].
  eexists _, _, _. split; [exact Ht|]. split; [exact Hh|].
  split; [reflexivity|]. rewrite build_block_txs.
  split; [reflexivity|]. split.
  - apply last_snoc.
  - rewrite lookup_app_r; rewrite length_map; [|lia].
    rewrite Nat.sub_diag. reflexivity.
Qed.

Lemma coinbase_reward_floor height fees :
  let k := height / REWARD_HALVING_LEN in
  let q := coinbase_reward height fees - fees in
  0 <= height -> 2 ^ k * q <= INITIAL_REWARD < 2 ^ k * (q + 1).
Proof.
  intros k q Hh. subst q. unfold coinbase_reward. fold k.
  pose proof REWARD_HALVING_LEN_pos as HH.
  assert (0 <= k) by (apply Z.div_pos; lia).
  assert (0 < 2 ^ k) by (apply Z.pow_pos_nonneg; lia).
  pose proof (Z.mul_div_le INITIAL_REWARD (2 ^ k)).
  pose proof (Z.mul_succ_div_gt INITIAL_REWARD (2 ^ k)).
  replace (INITIAL_REWARD / 2 ^ k + fees - fees)
    with (INITIAL_REWARD / 2 ^ k) by lia.
  lia.
Qed.

Lemma coinbase_reward_first_period height fees :
  0 <= height < REWARD_HALVING_LEN ->
  coinbase_reward height fees = INITIAL_REWARD + fees.
Proof.
  intros Hh. unfold coinbase_reward.
  rewrite (Z.div_small height REWARD_HALVING_LEN) by lia.
  rewrite Z.pow_0_r, Z.div_1_r. reflexivity.
Qed.

Lemma coinbase_reward_second_period height fees :
  REWARD_HALVING_LEN <= height < 2 * REWARD_HALVING_LEN ->
  coinbase_reward height fees = INITIAL_REWARD / 2 + fees.
Proof.
  intros Hh. unfold coinbase_reward.
  pose proof REWARD_HALVING_LEN_pos as HH.
  replace (height / REWARD_HALVING_LEN) with 1; [reflexivity|].
  apply Z.div_unique with (r := height - REWARD_HALVING_LEN); lia.
Qed.

(** C4: the single output of the coinbase of the candidate built by
    [retarget] carries [R / 2 ^ (h / H) + F], with [/] the flooring integer
    division, where [h] is the height of the block, [H] the halving
    length, [R] the initial reward and [F] the total fees of the mempool;
    this is [R + F] for [h] below [H], in particular at height 0, and
    [R / 2 + F] from [h = H] up to the next halving. *)
Theorem coinbase_amount (now : Z) (rnd : bytes) (m : Miner) (h H R F : Z) :
  get_height (block_template now m) = h ->
  REWARD_HALVING_LEN = H ->
  INITIAL_REWARD = R ->
  total_fees (mempool m) = F ->
  exists l blk coinbase out,
    target_block (post (retarget now rnd m)) = Some l /\
    heap (post (retarget now rnd m)) !! l = Some blk /\
    last (txs blk) = Some coinbase /\
    outputs coinbase = [out] /\
    amount out = R / 2 ^ (h / H) + F /\
    2 ^ (h / H) * (amount out - F) <= R < 2 ^ (h / H) * (amount out - F + 1) /\
    (h < H -> amount out = R + F) /\
    (H <= h < 2 * H -> amount out = R / 2 + F).
Proof.
  intros Hh HH HR HF.
  destruct (retarget_candidate now rnd m) as [Ht Hb].
  pose proof (get_height_nonneg (block_template now m)) as Hnn.
  eexists _, _, _, _. split; [exact Ht|]. split; [exact Hb|].
  rewrite build_block_txs. split; [apply last_snoc|].
  split; [reflexivity|].
  cbn [amount]. rewrite Hh, HF in *.
  split; [unfold coinbase_reward; rewrite HH, HR; reflexivity|].
  split.
  - pose proof (coinbase_reward_floor h F Hnn) as Hfl. cbv zeta in Hfl.
    rewrite HH, HR in Hfl. exact Hfl.
  - split.
    + intros Hlt. rewrite <- HR. apply coinbase_reward_first_period. lia.
    + intros Hbt. rewrite <- HR. apply coinbase_reward_second_period. lia.
Qed.

(** C10: [retarget] leaves every field of the miner as it was except
    [target_block], which now refers to a newly allocated block, and the
    retarget event, which is set; [mined_block] and [hashrate] are
    unchanged, and so is every block object that existed before, the one a
    pending [mined_block] refers to included. *)
Theorem retarget_frame (now : Z) (rnd : bytes) (m : Miner) :
  let m' := post (retarget now rnd m) in
  let l := fresh (dom (heap m)) in
  res (retarget now rnd m) = Ok tt /\
  m' = set_retarget_event true
         (set_target_block (Some l)
            (set_heap (<[l := build_block now rnd m l]> (heap m)) m)) /\
  retarget_event m' = true /\
  target_block m' = Some l /\
  heap m !! l = None /\
  mined_block m' = mined_block m /\
  hashrate m' = hashrate m /\
  (heap m ⊆ heap m') /\
  (forall l0 blk,
     mined_block m = Some l0 -> heap m !! l0 = Some blk ->
     mined_block m' = Some l0 /\ heap m' !! l0 = Some blk).
Proof.
  intros m' l. subst m'. rewrite retarget_post. fold l.
  cbn [retarget_event target_block mined_block hashrate heap].
  pose proof (fresh_block_unused m) as Hfresh. fold l in Hfresh.
  repeat (split; [reflexivity || exact Hfresh|]).
  split; [apply insert_subseteq, Hfresh|].
  intros l0 blk Hm Hblk. split; [exact Hm|].
  rewrite lookup_insert_ne; [exact Hblk|]. congruence.
Qed.

(** *** Start, stop and the hashrate *)

Lemma start_mining_running now rnd (m : Miner) th :
  mining_thread m = Some th ->
  start_mining now rnd m =
  {| res := Raise MinerIsRunningException; post := m; trace := [] |}.
Proof. intros H. unfold start_mining. rewrite H. reflexivity. Qed.

Lemma start_mining_idle now rnd (m : Miner) :
  mining_thread m = None ->
  let m0 :=
    set_retarget_event false
      (set_stop_event false
         (set_mempool (register_new_tx_callback RetargetCallback (mempool m))
            (set_blockchain
               (register_new_block_callback RetargetCallback (blockchain m))
               m))) in
  start_mining now rnd m =
  {| res := Ok tt;
     post := set_mining_thread (Some MinerThread) (post (retarget now rnd m0));
     trace := [EvRegisterBlockCallback; EvRegisterTxCallback; EvClearStop;
               EvClearRetarget; EvPublishTarget (fresh (dom (heap m)));
               EvSetRetarget; EvThreadStart] |}.
Proof. intros H. unfold start_mining. rewrite H. reflexivity. Qed.

(** C5: [start_mining] raises [MinerIsRunningException] exactly when a
    mining thread is registered with the miner, [stop_mining] and
    [get_hashrate] raise [MinerIsNotRunningException] exactly when none is;
    these are the only exceptions of the three operations, and a call that
    raises leaves the miner as it was and performs no action. *)
Theorem lifecycle_errors (now : Z) (rnd : bytes) (m : Miner) :
  (res (start_mining now rnd m) = Raise MinerIsRunningException
   <-> is_Some (mining_thread m)) /\
  (res (stop_mining m) = Raise MinerIsNotRunningException
   <-> mining_thread m = None) /\
  (res (get_hashrate m) = Raise MinerIsNotRunningException
   <-> mining_thread m = None) /\
  (forall e, res (start_mining now rnd m) = Raise e ->
     e = MinerIsRunningException /\
     post (start_mining now rnd m) = m /\ trace (start_mining now rnd m) = []) /\
  (forall e, res (stop_mining m) = Raise e ->
     e = MinerIsNotRunningException /\
     post (stop_mining m) = m /\ trace (stop_mining m) = []) /\
  (forall e, res (get_hashrate m) = Raise e ->
     e = MinerIsNotRunningException /\
     post (get_hashrate m) = m /\ trace (get_hashrate m) = []) /\
  (mining_thread m = None -> res (start_mining now rnd m) = Ok tt) /\
  (is_Some (mining_thread m) ->
     res (stop_mining m) = Ok tt /\ res (get_hashrate m) = Ok (hashrate m)).
Proof.
  unfold start_mining, stop_mining, get_hashrate.
  destruct (mining_thread m) as [th|]; cbn [res post trace];
    repeat split;
    try discriminate; try congruence; eauto;
    try (intros [? ?]; discriminate);
    exfalso; eapply is_Some_None; eassumption.
Qed.

(** C7: when [start_mining] succeeds, the target is installed by the
    synchronous [retarget] while the miner has no thread yet, and the thread
    is started afterwards: in the sequence of actions the publication comes
    before the start of the thread, the state the thread is started in has a
    target whose block exists, and the first turn of the wait loop of the
    thread reads that target and does not stay waiting. *)
Theorem start_publishes_before_spawn (now : Z) (rnd seed : bytes)
  (t0 t1 : Float) (m : Miner) :
  res (start_mining now rnd m) = Ok tt ->
  let o := start_mining now rnd m in
  exists l blk m_pub pre suf,
    mining_thread m_pub = None /\
    target_block m_pub = Some l /\
    heap m_pub !! l = Some blk /\
    post o = set_mining_thread (Some MinerThread) m_pub /\
    trace o = pre ++ EvPublishTarget l :: suf /\
    (EvThreadStart ∉ pre) /\
    (EvThreadStart ∈ suf) /\
    target_block (post o) = Some l /\
    heap (post o) !! l = Some blk /\
    stop_event (post o) = false /\
    w_target_block (snd (mine_step t0 t1 (post o) (mine_init seed))) = Some l /\
    pc (snd (mine_step t0 t1 (post o) (mine_init seed))) <> Waiting.
Proof.
  intros Hok o.
  destruct (mining_thread m) as [th|] eqn:Hth.
  { rewrite (start_mining_running now rnd m th Hth) in Hok. discriminate. }
  subst o. rewrite (start_mining_idle now rnd m Hth). cbn [post trace].
  set (m0 := set_retarget_event false _).
  destruct (retarget_candidate now rnd m0) as [Ht Hb].
  change (heap m0) with (heap m) in *.
  set (l := fresh (dom (heap m))) in *.
  set (m_pub := post (retarget now rnd m0)) in *.
  exists l, (build_block now rnd m0 l), m_pub,
    [EvRegisterBlockCallback; EvRegisterTxCallback; EvClearStop;
     EvClearRetarget], [EvSetRetarget; EvThreadStart].
  split; [exact Hth|]. split; [exact Ht|]. split; [exact Hb|].
  split; [reflexivity|]. split; [reflexivity|].
  split.
  { intros Hin. repeat (apply elem_of_cons in Hin as [Hin|Hin];
                         [discriminate|]).
    inversion Hin. }
  split; [apply list_elem_of_In; simpl; tauto|].
  split; [exact Ht|]. split; [exact Hb|]. split; [reflexivity|].
  unfold mine_step, mine_wait. cbn [pc mine_init].
  change (target_block (set_mining_thread (Some MinerThread) m_pub))
    with (target_block m_pub).
  change (stop_event (set_retarget_event false
            (set_mining_thread (Some MinerThread) m_pub))) with false.
  rewrite Ht. cbn iota. cbn [snd]. unfold enter_search.
  destruct (target_hash_of _); cbn; split; congruence.
Qed.

End Controller.

(** ** References stay allocated

    [deref] never meets a dangling reference: every operation of the
    controller and every step of the thread keeps the references of the
    miner and of the thread inside the store. *)

Section Allocation.
Context {E : Collaborators}.

Lemma refs_allocated_init bc mp pk reduce h seed :
  refs_allocated (Miner_init bc mp pk reduce h) (mine_init seed).
Proof. repeat split; intros l Hl; discriminate. Qed.

Lemma refs_allocated_retarget now rnd (m : Miner) w :
  refs_allocated m w -> refs_allocated (post (retarget now rnd m)) w.
Proof.
  intros (Ht & Hm & Hw). rewrite retarget_post.
  pose proof (fresh_block_unused m) as Hfresh.
  unfold refs_allocated. cbn [target_block mined_block heap].
  split; [|split].
  - intros l Hl. assert (l = fresh (dom (heap m))) as -> by congruence.
    rewrite lookup_insert_eq. eauto.
  - intros l Hl. apply Hm in Hl as [b Hb].
    rewrite lookup_insert_ne by congruence. eauto.
  - intros l Hl. apply Hw in Hl as [b Hb].
    rewrite lookup_insert_ne by congruence. eauto.
Qed.

Lemma refs_allocated_start_mining now rnd (m : Miner) w :
  refs_allocated m w -> refs_allocated (post (start_mining now rnd m)) w.
Proof.
  intros Hwf. destruct (mining_thread m) as [th|] eqn:Hth.
  - rewrite (start_mining_running now rnd m th Hth). exact Hwf.
  - rewrite (start_mining_idle now rnd m Hth). cbn [post].
    set (m0 := set_retarget_event false _).
    assert (H0 : refs_allocated m0 w) by exact Hwf.
    apply (refs_allocated_retarget now rnd) in H0. exact H0.
Qed.

Lemma refs_allocated_stop_mining (m : Miner) w :
  refs_allocated m w -> refs_allocated (post (stop_mining m)) w.
Proof.
  intros Hwf. unfold stop_mining. destruct (mining_thread m); exact Hwf.
Qed.

Lemma refs_allocated_get_mined_block (m : Miner) w :
  refs_allocated m w -> refs_allocated (post (get_mined_block m)) w.
Proof.
  intros (Ht & Hm & Hw). unfold get_mined_block. cbn [post].
  split; [exact Ht|]. split; [|exact Hw]. intros l Hl. discriminate.
Qed.

Lemma is_Some_alter_nonce (h : gmap loc (Block ChainHead)) l l' n :
  is_Some (h !! l') -> is_Some (alter (set_nonce n) l h !! l').
Proof.
  intros [b Hb]. destruct (decide (l = l')) as [->|Hne].
  - rewrite lookup_alter_eq, Hb. eauto.
  - rewrite lookup_alter_ne by exact Hne. eauto.
Qed.

Lemma refs_allocated_finish_batch t0 t1 s (m : Miner) w :
  refs_allocated m w ->
  refs_allocated (fst (finish_batch t0 t1 s m w))
    (snd (finish_batch t0 t1 s m w)).
Proof.
  intros Hwf. unfold finish_batch.
  destruct (hashrate_of _ t0 t1); [|exact Hwf].
  cbn [stop_event set_hashrate]. destruct (stop_event m); exact Hwf.
Qed.

Lemma refs_allocated_enter_search (m : Miner) l w :
  refs_allocated m w -> refs_allocated m (enter_search m l w).
Proof.
  intros Hwf. unfold enter_search. destruct (target_hash_of _); exact Hwf.
Qed.

Lemma refs_allocated_mine_wait (m : Miner) w :
  refs_allocated m w ->
  refs_allocated (fst (mine_wait m w)) (snd (mine_wait m w)).
Proof.
  intros (Ht & Hm & Hw).
  assert (Hwf : refs_allocated (set_retarget_event false m)
                  (set_w_target_block (target_block m) w))
    by (split; [exact Ht|split; [exact Hm|exact Ht]]).
  unfold mine_wait. cbn [stop_event set_retarget_event].
  destruct (stop_event m); [exact Hwf|].
  destruct (target_block m) as [l|]; [|exact Hwf].
  cbn [fst snd]. apply refs_allocated_enter_search. exact Hwf.
Qed.

Lemma refs_allocated_publish_hit (m : Miner) w l n :
  refs_allocated m w ->
  w_target_block w = Some l ->
  refs_allocated (publish_hit l n m)
    (set_w_target_block None (set_w_nonce n w)).
Proof.
  intros (Ht & Hm & Hw) Hl. split; [|split].
  - intros l' Hl'. discriminate.
  - intros l' Hl'. assert (l' = l) as -> by (cbn in Hl'; congruence).
    apply is_Some_alter_nonce, Hw, Hl.
  - intros l' Hl'. discriminate.
Qed.

Lemma refs_allocated_mine_search t0 t1 (m : Miner) w :
  refs_allocated m w ->
  refs_allocated (fst (mine_search t0 t1 m w)) (snd (mine_search t0 t1 m w)).
Proof.
  intros Hwf. unfold mine_search. destruct (retarget_event m).
  { destruct Hwf as (Ht & Hm & Hw). split; [exact Ht|]. split; [exact Hm|].
    intros l Hl. discriminate. }
  destruct (batch _ _ _ _) as [n|n|e n].
  - cbn [w_target_block set_w_nonce].
    destruct (w_target_block w) as [l|] eqn:Hl; [|exact Hwf].
    apply refs_allocated_finish_batch, refs_allocated_publish_hit;
      assumption.
  - apply refs_allocated_finish_batch. exact Hwf.
  - exact Hwf.
Qed.

Lemma refs_allocated_mine_step t0 t1 (m : Miner) w :
  refs_allocated m w ->
  refs_allocated (fst (mine_step t0 t1 m w)) (snd (mine_step t0 t1 m w)).
Proof.
  intros Hwf. unfold mine_step. destruct (pc w).
  - apply refs_allocated_mine_wait, Hwf.
  - apply refs_allocated_mine_search, Hwf.
  - exact Hwf.
  - exact Hwf.
Qed.

End Allocation.

(** ** Blocks are handed out once *)

Section Handout.
Context {E : Collaborators}.

Lemma take_blocks_spec k (m : Miner) :
  take_blocks (S k) m =
  (Ok (mined_block m) :: replicate k (Ok None), set_mined_block None m).
Proof.
  cbn [take_blocks]. unfold get_mined_block at 1 2. cbn [post res].
  generalize (mined_block m) as first.
  assert (Hrest : forall k, take_blocks k (set_mined_block None m) =
                     (replicate k (Ok None), set_mined_block None m)).
  { clear k. induction k as [|k IH]; [reflexivity|].
    cbn [take_blocks replicate]. unfold get_mined_block at 1 2.
    cbn [post res]. change (set_mined_block None (set_mined_block None m))
      with (set_mined_block None m). rewrite IH. reflexivity. }
  intros first. rewrite Hrest. reflexivity.
Qed.

(** How a step of the thread moves the references: the store keeps its
    domain, and either the miner keeps its two references while the thread
    keeps its own, takes the target of the miner or drops it, or the block
    of the thread is published and both targets are dropped. *)
Lemma mine_step_refs t0 t1 (m : Miner) w :
  let m' := fst (mine_step t0 t1 m w) in
  let w' := snd (mine_step t0 t1 m w) in
  (forall l, is_Some (heap m !! l) -> is_Some (heap m' !! l)) /\
  ((target_block m' = target_block m /\ mined_block m' = mined_block m /\
    (w_target_block w' = w_target_block w \/
     w_target_block w' = target_block m \/
     w_target_block w' = None)) \/
   (exists l, w_target_block w = Some l /\ mined_block m' = Some l /\
      target_block m' = None /\ w_target_block w' = None)).
Proof.
  assert (Hfin : forall s (m0 : Miner) w0,
            heap (fst (finish_batch t0 t1 s m0 w0)) = heap m0 /\
            target_block (fst (finish_batch t0 t1 s m0 w0)) = target_block m0 /\
            mined_block (fst (finish_batch t0 t1 s m0 w0)) = mined_block m0 /\
            w_target_block (snd (finish_batch t0 t1 s m0 w0))
              = w_target_block w0).
  { intros s m0 w0. unfold finish_batch.
    destruct (hashrate_of _ t0 t1); [|auto].
    cbn [stop_event set_hashrate]. destruct (stop_event m0); auto. }
  unfold mine_step. destruct (pc w); cbv zeta.
  - unfold mine_wait, enter_search. cbn [stop_event set_retarget_event].
    destruct (target_block m) as [l|] eqn:Hl; destruct (stop_event m);
      try destruct (target_hash_of _); cbn; rewrite ?Hl; intuition eauto.
  - unfold mine_search. destruct (retarget_event m); [cbn; intuition eauto|].
    destruct (batch _ _ _ _) as [n|n|e n]; [| |cbn; intuition eauto].
    + cbn [w_target_block set_w_nonce].
      destruct (w_target_block w) as [l|] eqn:Hl; [|cbn; intuition eauto].
      destruct (Hfin (w_nonce w) (publish_hit l n m)
                  (set_w_target_block None (set_w_nonce n w)))
        as (-> & -> & -> & ->).
      split.
      * intros l'. apply is_Some_alter_nonce.
      * right. exists l. auto.
    + destruct (Hfin (w_nonce w) m (set_w_nonce n w)) as (-> & -> & -> & ->).
      cbn. intuition eauto.
  - cbn; intuition eauto.
  - cbn; intuition eauto.
Qed.

Lemma sys_inv_init bc mp pk reduce h : sys_inv (sys_init bc mp pk reduce h).
Proof.
  unfold sys_inv, sys_init, thread_target. cbn.
  split; [|split; [|split]].
  - intros l [H|[H|[H|H]]]; try discriminate. inversion H.
  - intros l H. inversion H.
  - intros l H. discriminate.
  - constructor.
Qed.

Lemma sys_inv_retarget now rnd (s : System) :
  sys_inv s -> sys_inv (sys_step s (DoRetarget now rnd)).
Proof.
  intros (Ha & Ht & Hm & Hn). unfold sys_inv. cbn [sys_step sys_miner sys_taken].
  change (thread_target {| sys_miner := post (retarget now rnd (sys_miner s));
            sys_thread := sys_thread s; sys_taken := sys_taken s |})
    with (thread_target s).
  rewrite retarget_post. cbn [target_block mined_block heap].
  pose proof (fresh_block_unused (sys_miner s)) as Hfresh.
  set (l0 := fresh (dom (heap (sys_miner s)))) in *.
  assert (Hne : forall l, is_Some (heap (sys_miner s) !! l) -> l0 <> l).
  { intros l [b Hb] ->. congruence. }
  split; [|split; [|split]].
  - intros l H. destruct (decide (l0 = l)) as [<-|Hl].
    + rewrite lookup_insert_eq. eauto.
    + rewrite lookup_insert_ne by exact Hl.
      apply Ha. destruct H as [H|H]; [congruence|right; exact H].
  - intros l Hl. destruct (Ht l Hl) as (_ & H2 & H3).
    split; [|split; assumption].
    intros Heq. apply (Hne l); [apply Ha; auto|congruence].
  - intros l Hl. destruct (Hm l Hl) as [_ H2]. split; [|exact H2].
    intros Heq. apply (Hne l); [apply Ha; auto|congruence].
  - exact Hn.
Qed.

Lemma sys_inv_start now rnd seed (s : System) :
  sys_inv s -> sys_inv (sys_step s (DoStart now rnd seed)).
Proof.
  intros Hinv. cbn [sys_step].
  destruct (mining_thread (sys_miner s)) as [th|] eqn:Hth.
  - rewrite (start_mining_running now rnd _ th Hth). cbn [post res].
    destruct s; exact Hinv.
  - rewrite (start_mining_idle now rnd _ Hth). cbn [post res].
    set (m0 := set_retarget_event false _).
    pose proof (sys_inv_retarget now rnd
                  {| sys_miner := m0; sys_thread := None;
                     sys_taken := sys_taken s |}) as Hr.
    cbn [sys_step sys_miner sys_thread sys_taken] in Hr.
    destruct Hr as (Ha & Ht & Hm & Hn).
    { destruct Hinv as (Ha & Ht & Hm & Hn).
      split; [|split; [|split]].
      - intros l H. apply Ha. cbn in H.
        destruct H as [H|[H|[H|H]]]; try discriminate; auto.
      - intros l Hl. destruct (Ht l Hl) as (H1 & H2 & _).
        split; [exact H1|]. split; [exact H2|]. discriminate.
      - intros l Hl. destruct (Hm l Hl) as [H1 _].
        split; [exact H1|]. discriminate.
      - exact Hn. }
    split; [|split; [|split]].
    + intros l H. apply Ha. cbn in H. cbn.
      destruct H as [H|[H|[H|H]]]; try discriminate; auto.
    + intros l Hl. destruct (Ht l Hl) as (H1 & H2 & _).
      split; [exact H1|]. split; [exact H2|]. discriminate.
    + intros l Hl. destruct (Hm l Hl) as [H1 _].
      split; [exact H1|]. discriminate.
    + exact Hn.
Qed.

Lemma sys_inv_get_mined_block (s : System) :
  sys_inv s -> sys_inv (sys_step s DoGetMinedBlock).
Proof.
  intros (Ha & Ht & Hm & Hn). cbn [sys_step]. unfold get_mined_block.
  cbn [res post]. unfold sys_inv, thread_target.
  cbn [sys_miner sys_thread sys_taken target_block mined_block heap
       set_mined_block].
  fold (thread_target s).
  destruct (mined_block (sys_miner s)) as [l0|] eqn:Hl0.
  - destruct (Hm l0 eq_refl) as [Hm1 Hm2].
    split; [|split; [|split]].
    + intros l [H|[H|[H|H]]]; [auto|discriminate|auto|].
      apply elem_of_cons in H as [->|H]; apply Ha; auto.
    + intros l Hl. split; [|split; [discriminate|]].
      * apply elem_of_cons in Hl as [->|Hl]; [exact Hm1|apply Ht, Hl].
      * apply elem_of_cons in Hl as [->|Hl]; [exact Hm2|apply Ht, Hl].
    + intros l Hl. discriminate.
    + constructor; [|exact Hn]. intros Hin.
      destruct (Ht l0 Hin) as (_ & H2 & _). apply H2. reflexivity.
  - split; [|split; [|split]].
    + intros l [H|[H|[H|H]]]; [auto|discriminate|auto|auto].
    + intros l Hl. destruct (Ht l Hl) as (H1 & _ & H3).
      split; [exact H1|]. split; [discriminate|exact H3].
    + intros l Hl. discriminate.
    + exact Hn.
Qed.

Lemma sys_inv_thread_step t0 t1 (s : System) :
  sys_inv s -> sys_inv (sys_step s (DoThreadStep t0 t1)).
Proof.
  intros Hinv. cbn [sys_step].
  destruct (sys_thread s) as [w|] eqn:Hw; [|exact Hinv].
  pose proof (mine_step_refs t0 t1 (sys_miner s) w) as Hrefs.
  destruct (mine_step t0 t1 (sys_miner s) w) as [m' w'].
  cbv zeta in Hrefs. cbn [fst snd] in Hrefs.
  destruct Hrefs as [Hdom Hcase].
  destruct Hinv as (Ha & Ht & Hm & Hn).
  unfold thread_target in Ha, Ht, Hm. rewrite Hw in Ha, Ht, Hm.
  unfold sys_inv, thread_target. cbn [sys_miner sys_thread sys_taken].
  destruct Hcase as [(Htb & Hmb & Hwt)|(l0 & Hwl & Hmb & Htb & Hwt)].
  - rewrite Htb, Hmb. split; [|split; [|split]].
    + intros l H. apply Hdom, Ha.
      destruct H as [H|[H|[H|H]]]; auto.
      destruct Hwt as [Hwt|[Hwt|Hwt]]; rewrite Hwt in H;
        try discriminate; auto.
    + intros l Hl. destruct (Ht l Hl) as (H1 & H2 & H3).
      split; [exact H1|]. split; [exact H2|].
      destruct Hwt as [Hwt|[Hwt|Hwt]]; rewrite Hwt;
        try discriminate; auto.
    + intros l Hl. destruct (Hm l Hl) as [H1 H2]. split; [exact H1|].
      destruct Hwt as [Hwt|[Hwt|Hwt]]; rewrite Hwt;
        try discriminate; auto.
    + exact Hn.
  - rewrite Htb, Hmb, Hwt. split; [|split; [|split]].
    + intros l H. apply Hdom, Ha.
      destruct H as [H|[H|[H|H]]]; try discriminate; auto.
      right; right; left. congruence.
    + intros l Hl. destruct (Ht l Hl) as (_ & _ & H3).
      split; [discriminate|]. split; [congruence|discriminate].
    + intros l Hl. split; discriminate.
    + exact Hn.
Qed.

Lemma sys_inv_step (s : System) a : sys_inv s -> sys_inv (sys_step s a).
Proof.
  destruct a as [now rnd|now rnd seed| | | |t0 t1].
  - apply sys_inv_retarget.
  - apply sys_inv_start.
  - intros Hinv. cbn [sys_step]. unfold stop_mining.
    destruct (mining_thread (sys_miner s)); [|destruct s; exact Hinv].
    exact Hinv.
  - intros Hinv. cbn [sys_step]. unfold get_hashrate.
    destruct (mining_thread (sys_miner s)); destruct s; exact Hinv.
  - apply sys_inv_get_mined_block.
  - apply sys_inv_thread_step.
Qed.

Lemma sys_inv_run acts (s : System) : sys_inv s -> sys_inv (sys_run s acts).
Proof.
  revert s. induction acts as [|a acts IH]; intros s Hinv; [exact Hinv|].
  apply IH, sys_inv_step, Hinv.
Qed.

(** C6: [get_mined_block] returns the content of [mined_block] and leaves
    the field empty, without touching anything else; called again at once,
    any number of times, it returns nothing.  However the calls of the
    controller and the steps of the thread follow each other from
    [Miner_init] on, the blocks handed out by [get_mined_block] are all
    different, and a block that was handed out is not in [mined_block]. *)
Theorem get_mined_block_consumes (m : Miner) :
  let first := get_mined_block m in
  let second := get_mined_block (post first) in
  res first = Ok (mined_block m) /\
  post first = set_mined_block None m /\
  mined_block (post first) = None /\
  res second = Ok None /\
  post second = post first /\
  (forall k, take_blocks (S k) m =
     (Ok (mined_block m) :: replicate k (Ok None), set_mined_block None m)) /\
  (forall bc mp pk reduce h acts,
     let s := sys_run (sys_init bc mp pk reduce h) acts in
     NoDup (sys_taken s) /\
     (forall l, l ∈ sys_taken s -> mined_block (sys_miner s) <> Some l)).
Proof.
  intros first second. subst first second. unfold get_mined_block.
  cbn [res post mined_block set_mined_block].
  repeat (split; [reflexivity|]).
  split; [intros k; apply take_blocks_spec|].
  intros bc mp pk reduce h acts.
  destruct (sys_inv_run acts _ (sys_inv_init bc mp pk reduce h))
    as (_ & Ht & _ & Hn).
  split; [exact Hn|]. intros l Hl. apply (Ht l Hl).
Qed.

End Handout.

(** ** The theorems at work on the toy instance *)

(** The candidate of the first retarget. *)
Example toy_first_candidate :
  heap (toy_started 13 false) !! 1%positive =
  Some {| parent := Some (0%N, 13); prev_hash := [x00; x00];
          timestamp := 1000; diff := 13;
          txs := [make_coinbase 50 [x01; x02] 1%positive toy_seed];
          nonce := 0; merkle_root := [x01] |}.
Proof. reflexivity. Qed.

(** From the seed 42 the first batch finds the nonce 9362. *)
Example toy_batch_finds_nonce :
  batch (E := Toy) BATCH_SIZE [x00; x00; x03; xe8] 8 42 = BatchHit 9362.
Proof. vm_compute. reflexivity. Qed.

(** Two blocks are mined and handed out in the course of a run. *)
Example toy_system_run :
  sys_taken
    (sys_run (E := Toy)
       (sys_init (Build_Blockchain (E := Toy) (0%N, 13) [])
          (Build_Mempool [] 0 []) [x01; x02] false ∅)
       [DoStart 1000 toy_seed zero_seed;
        @DoThreadStep Toy 0 0; @DoThreadStep Toy 0 4;
        DoRetarget 1001 toy_seed; DoGetMinedBlock; DoGetMinedBlock;
        @DoThreadStep Toy 4 4; @DoThreadStep Toy 4 5; @DoThreadStep Toy 5 9;
        DoGetMinedBlock; DoStop; @DoThreadStep Toy 9 9])
  = [2%positive; 1%positive].
Proof. vm_compute. reflexivity. Qed.

Lemma mine_run_terminated {E : Collaborators} clock (m : Miner) (w : Worker) :
  pc w = Terminated -> mine_run clock m w = (m, w).
Proof.
  intros Hpc. induction clock as [|[t0 t1] clock IH]; [reflexivity|].
  cbn [mine_run]. unfold mine_step. rewrite Hpc. exact IH.
Qed.

Lemma mine_run_crashed {E : Collaborators} clock (m : Miner) (w : Worker) e :
  pc w = Crashed e -> mine_run clock m w = (m, w).
Proof.
  intros Hpc. induction clock as [|[t0 t1] clock IH]; [reflexivity|].
  cbn [mine_run]. unfold mine_step. rewrite Hpc. exact IH.
Qed.


(** With the reduced mode, difficulty 13 becomes 3 and the threshold
    [2 ^ 13]. *)
Lemma reduced_difficulty_witness :
  shl_one (8 * @HASH_LEN Toy - Z.max (13 - 10) 1) = Ok 8192 /\
  search_diff (reduce_local_diff (toy_started 13 true))
    (diff (deref (heap (toy_started 13 true)) 1%positive)) = 3 /\
  w_target_hash
    (enter_search (toy_started 13 true) 1%positive (mine_init toy_seed))
    = 8192.
Proof.
  assert (H : shl_one (8 * @HASH_LEN Toy - Z.max (13 - 10) 1) = Ok 8192)
    by reflexivity.
  split; [exact H|].
  destruct (reduced_difficulty (toy_started 13 true) 1%positive
              (mine_init toy_seed)) as (Hd & _ & _ & _ & _ & Ht).
  split; [exact Hd|]. exact (proj1 (Ht 8192 H)).
Defined.

(** The counter of a thread seeded with the bytes of 42 starts at 42, and
    is not lower after the first step. *)
Lemma nonce_counter_witness :
  length toy_seed = 4%nat /\
  rtc (thread_step (E := Toy)) (mine_init toy_seed)
    (snd (mine_step (E := Toy) 0 0 (toy_started 13 false) (mine_init toy_seed))) /\
  w_nonce (mine_init toy_seed) = 42 /\
  to_bytes_big 4 42 = toy_seed /\
  0 <= w_nonce (mine_init toy_seed) < 2 ^ 32 /\
  w_nonce (mine_init toy_seed) <=
  w_nonce (snd (mine_step (E := Toy) 0 0 (toy_started 13 false)
                  (mine_init toy_seed))).
Proof.
  assert (H1 : length toy_seed = 4%nat) by reflexivity.
  assert (H2 : rtc (thread_step (E := Toy)) (mine_init toy_seed)
                 (snd (mine_step (E := Toy) 0 0 (toy_started 13 false)
                         (mine_init toy_seed)))).
  { apply rtc_once. exists 0, 0, (toy_started 13 false). reflexivity. }
  split; [exact H1|]. split; [exact H2|].
  destruct (nonce_counter (E := Toy) toy_seed _ H1 H2)
    as (Hv & Hback & _ & _ & _ & Hr & Hm & _).
  split; [exact Hv|]. split; [exact Hback|].
  split; [exact Hr|exact Hm].
Defined.

(** C9, counterexample: the counter value [2 ^ 64] is not packed as
    [2 ^ 64 mod 2 ^ 64 = 0] would be: [struct.pack] raises, and a thread
    whose counter has reached [2 ^ 64] dies in its next batch. *)
Lemma nonce_does_not_wrap :
  pack_Q (2 ^ 64) = Raise StructError /\
  pack_Q (2 ^ 64 mod 2 ^ 64) = Ok [x00; x00; x00; x00; x00; x00; x00; x00] /\
  ~ (pack_Q (2 ^ 64) = pack_Q (2 ^ 64 mod 2 ^ 64)) /\
  (exists (m : @Miner Toy) (w : Worker),
     pc w = Searching /\ retarget_event m = false /\ w_nonce w = 2 ^ 64 /\
     pc (snd (mine_step (E := Toy) 0 1 m w)) = Crashed StructError /\
     w_nonce (snd (mine_step (E := Toy) 0 1 m w)) = 2 ^ 64).
Proof.
  split; [reflexivity|]. split; [reflexivity|]. split; [discriminate|].
  exists (fst toy_searching), (set_w_nonce (2 ^ 64) (snd toy_searching)).
  split; [reflexivity|]. split; [reflexivity|]. split; [reflexivity|].
  split; vm_compute; reflexivity.
Qed.

(** The first batch of the toy thread seeded with 0 hits at once.  With
    four seconds on the clock the block is published and the next step
    leads back to the wait loop; with no time on the clock the block is
    published all the same, and the thread dies of the division. *)
Lemma hit_publishes_block_witness :
  pc (snd toy_searching) = Searching /\
  retarget_event (fst toy_searching) = false /\
  w_target_block (snd toy_searching) = Some 1%positive /\
  batch (E := Toy) BATCH_SIZE (w_prefix (snd toy_searching))
    (w_target_hash (snd toy_searching)) (w_nonce (snd toy_searching))
    = BatchHit 0 /\
  @hashrate_of Toy (0 - w_nonce (snd toy_searching)) 0 4 = Some 0 /\
  mined_block (fst (mine_step (E := Toy) 0 4 (fst toy_searching)
                      (snd toy_searching))) = Some 1%positive /\
  pc (snd (mine_step (E := Toy) 0 4 (fst toy_searching) (snd toy_searching)))
    = Searching /\
  pc (snd (mine_run (E := Toy) [(0, 4); (4, 4)] (fst toy_searching)
             (snd toy_searching))) = Waiting /\
  @hashrate_of Toy (0 - w_nonce (snd toy_searching)) 0 0 = None /\
  fst (mine_step (E := Toy) 0 0 (fst toy_searching) (snd toy_searching))
    = publish_hit 1%positive 0 (fst toy_searching) /\
  mined_block (fst (mine_step (E := Toy) 0 0 (fst toy_searching)
                      (snd toy_searching))) = Some 1%positive /\
  pc (snd (mine_step (E := Toy) 0 0 (fst toy_searching) (snd toy_searching)))
    = Crashed ZeroDivisionError.
Proof.
  assert (H1 : pc (snd toy_searching) = Searching) by reflexivity.
  assert (H2 : retarget_event (fst toy_searching) = false) by reflexivity.
  assert (H3 : w_target_block (snd toy_searching) = Some 1%positive)
    by reflexivity.
  assert (H4 : batch (E := Toy) BATCH_SIZE (w_prefix (snd toy_searching))
                 (w_target_hash (snd toy_searching))
                 (w_nonce (snd toy_searching)) = BatchHit 0)
    by (vm_compute; reflexivity).
  assert (H5 : @hashrate_of Toy (0 - w_nonce (snd toy_searching)) 0 4 = Some 0)
    by reflexivity.
  assert (H6 : @hashrate_of Toy (0 - w_nonce (snd toy_searching)) 0 0 = None)
    by reflexivity.
  split; [exact H1|]. split; [exact H2|]. split; [exact H3|].
  split; [exact H4|]. split; [exact H5|].
  destruct (hit_publishes_block (E := Toy) 0 4 (fst toy_searching)
              (snd toy_searching) 1%positive 0 H1 H2 H3 H4)
    as (_ & _ & _ & _ & (_ & Hmined & _) & _ & _ & Hpc & Hsome & _).
  destruct (hit_publishes_block (E := Toy) 0 0 (fst toy_searching)
              (snd toy_searching) 1%positive 0 H1 H2 H3 H4)
    as (_ & _ & _ & _ & (_ & Hmined0 & _) & _ & _ & Hpc0 & _ & Hnone).
  split; [exact Hmined|].
  rewrite H5 in Hpc. split; [exact Hpc|].
  split.
  { cbn [mine_run].
    destruct (mine_step (E := Toy) 0 4 (fst toy_searching)
                (snd toy_searching)) as [m2 w2] eqn:Hstep.
    cbn [fst snd] in Hsome.
    rewrite (proj2 (Hsome 0 H5) eq_refl 4 4). reflexivity. }
  split; [exact H6|].
  split; [exact (proj1 (Hnone H6))|].
  split; [exact Hmined0|].
  rewrite H6 in Hpc0. exact Hpc0.
Defined.

(** C3, counterexample: the stop event is set while the thread searches;
    the batch finds a hit and publishes the block, and the thread then
    returns instead of going back to the wait loop. *)
Lemma hit_then_stop_terminates :
  pc (snd toy_searching) = Searching /\
  w_target_block (snd toy_searching) = Some 1%positive /\
  retarget_event toy_stopping = false /\
  stop_event toy_stopping = true /\
  batch (E := Toy) BATCH_SIZE (w_prefix (snd toy_searching))
    (w_target_hash (snd toy_searching)) (w_nonce (snd toy_searching))
    = BatchHit 0 /\
  mined_block (fst (mine_step (E := Toy) 0 4 toy_stopping (snd toy_searching)))
    = Some 1%positive /\
  pc (snd (mine_step (E := Toy) 0 4 toy_stopping (snd toy_searching)))
    = Terminated /\
  (forall clock,
     pc (snd (mine_run (E := Toy) ((0, 4) :: clock) toy_stopping
                (snd toy_searching))) = Terminated /\
     ~ pc (snd (mine_run (E := Toy) ((0, 4) :: clock) toy_stopping
                  (snd toy_searching))) = Waiting).
Proof.
  assert (Hstep : pc (snd (mine_step (E := Toy) 0 4 toy_stopping
                             (snd toy_searching))) = Terminated)
    by (vm_compute; reflexivity).
  split; [reflexivity|]. split; [reflexivity|]. split; [reflexivity|].
  split; [reflexivity|]. split; [vm_compute; reflexivity|].
  split; [vm_compute; reflexivity|]. split; [exact Hstep|].
  intros clock. cbn [mine_run].
  destruct (mine_step (E := Toy) 0 4 toy_stopping (snd toy_searching))
    as [m w] eqn:Hms.
  cbn [snd] in Hstep. rewrite (mine_run_terminated (E := Toy) clock m w Hstep).
  cbn [snd]. rewrite Hstep. split; [reflexivity|discriminate].
Qed.

(** C2, counterexample: with one transaction pending, the first element of
    the candidate's transaction list is that transaction and the coinbase
    comes second. *)
Lemma coinbase_is_not_first :
  exists (l : loc) (blk : Block (@ChainHead Toy)) (coinbase : Transaction),
    target_block (post (retarget 1000 toy_seed toy_pending)) = Some l /\
    heap (post (retarget 1000 toy_seed toy_pending)) !! l = Some blk /\
    coinbase = make_coinbase 52 [x01; x02] l toy_seed /\
    txs blk = [toy_tx; coinbase] /\
    txs blk !! 0%nat = Some toy_tx /\
    ~ (txs blk !! 0%nat = Some coinbase).
Proof.
  exists 1%positive. eexists _, _.
  split; [reflexivity|]. split; [reflexivity|]. split; [reflexivity|].
  split; [reflexivity|]. split; [reflexivity|].
  vm_compute. discriminate.
Qed.

(** At height 5 with halving length 4, initial reward 50 and fees 3 the
    coinbase pays [50 / 2 + 3 = 28]. *)
Lemma coinbase_amount_witness :
  @get_height Toy (block_template 1000 (toy_miner 4 13 false [] 3)) = 5 /\
  @REWARD_HALVING_LEN Toy = 4 /\
  @INITIAL_REWARD Toy = 50 /\
  total_fees (mempool (toy_miner 4 13 false [] 3)) = 3 /\
  exists l blk coinbase out,
    target_block (post (retarget 1000 toy_seed (toy_miner 4 13 false [] 3)))
      = Some l /\
    heap (post (retarget 1000 toy_seed (toy_miner 4 13 false [] 3))) !! l
      = Some blk /\
    last (txs blk) = Some coinbase /\
    outputs coinbase = [out] /\
    amount out = 28.
Proof.
  assert (H1 : @get_height Toy
                 (block_template 1000 (toy_miner 4 13 false [] 3)) = 5)
    by reflexivity.
  assert (H2 : @REWARD_HALVING_LEN Toy = 4) by reflexivity.
  assert (H3 : @INITIAL_REWARD Toy = 50) by reflexivity.
  assert (H4 : total_fees (mempool (toy_miner 4 13 false [] 3)) = 3)
    by reflexivity.
  split; [exact H1|]. split; [exact H2|]. split; [exact H3|].
  split; [exact H4|].
  destruct (coinbase_amount (E := Toy) 1000 toy_seed
              (toy_miner 4 13 false [] 3) 5 4 50 3 H1 H2 H3 H4)
    as (l & blk & cb & out & Ht & Hb & Hl & Ho & Ha & _).
  exists l, blk, cb, out.
  split; [exact Ht|]. split; [exact Hb|]. split; [exact Hl|].
  split; [exact Ho|]. rewrite Ha. reflexivity.
Defined.

(** After [start_mining] on the toy miner the target is the block 1, and
    the first step of the thread picks it up. *)
Lemma start_publishes_before_spawn_witness :
  res (start_mining (E := Toy) 1000 toy_seed (toy_miner 0 13 false [] 0))
    = Ok tt /\
  target_block (toy_started 13 false) = Some 1%positive /\
  is_Some (heap (toy_started 13 false) !! 1%positive) /\
  w_target_block (snd toy_searching) = Some 1%positive.
Proof.
  assert (H : res (start_mining (E := Toy) 1000 toy_seed
                     (toy_miner 0 13 false [] 0)) = Ok tt) by reflexivity.
  split; [exact H|].
  destruct (start_publishes_before_spawn (E := Toy) 1000 toy_seed zero_seed
              0 0 (toy_miner 0 13 false [] 0) H)
    as (l & blk & m_pub & pre & suf & _ & _ & _ & _ & _ & _ & _
        & Ht & Hb & _ & Hw & _).
  assert (Hl : l = 1%positive).
  { change (target_block (toy_started 13 false) = Some l) in Ht.
    assert (Some 1%positive = Some l) as Heq by exact Ht.
    congruence. }
  subst l.
  split; [exact Ht|]. split; [exists blk; exact Hb|]. exact Hw.
Defined.

(** * Further properties of the miner *)

Section Further.
Context {E : Collaborators}.

(** X1: two nonces that can be packed are hashed as the same message, for
    the same prefix, only when they are the same nonce. *)
Theorem hash_inputs_distinct (prefix : bytes) (n n' : Z) (p p' : bytes) :
  pack_Q n = Ok p ->
  pack_Q n' = Ok p' ->
  (prefix ++ p = prefix ++ p' <-> n = n') /\
  length (prefix ++ p) = (length prefix + 8)%nat.
Proof.
  intros Hp Hp'.
  destruct (pack_Q_inv n p Hp) as (_ & Hl & Hv).
  destruct (pack_Q_inv n' p' Hp') as (_ & Hl' & Hv').
  split.
  - split.
    + intros Happ. apply app_inv_head in Happ. congruence.
    + intros ->. assert (Ok p = Ok p') as Heq by congruence.
      congruence.
  - rewrite length_app, Hl. reflexivity.
Qed.

(** X2: the coinbase of a candidate has exactly one input, whose index is
    the number read from the four random bytes, and one output, which pays
    to the reward address and refers back to the candidate; two retargets
    of the same miner give the same coinbase exactly when their random
    bytes agree. *)
Theorem coinbase_random_index (now : Z) (rnd rnd' : bytes) (m : Miner) :
  length rnd = 4%nat ->
  length rnd' = 4%nat ->
  exists l blk blk' cb cb' out,
    target_block (post (retarget now rnd m)) = Some l /\
    target_block (post (retarget now rnd' m)) = Some l /\
    heap (post (retarget now rnd m)) !! l = Some blk /\
    heap (post (retarget now rnd' m)) !! l = Some blk' /\
    last (txs blk) = Some cb /\
    last (txs blk') = Some cb' /\
    inputs cb = [{| index := int_from_bytes_big rnd |}] /\
    0 <= int_from_bytes_big rnd < 2 ^ 32 /\
    outputs cb = [out] /\
    out_pubkey out = pubkey m /\
    out_block out = Some l /\
    (cb = cb' <-> rnd = rnd') /\
    (txs blk = txs blk' <-> rnd = rnd').
Proof.
  intros Hlen Hlen'.
  destruct (retarget_candidate now rnd m) as [Ht Hb].
  destruct (retarget_candidate now rnd' m) as [Ht' Hb'].
  eexists _, _, _, _, _, _.
  split; [exact Ht|]. split; [exact Ht'|].
  split; [exact Hb|]. split; [exact Hb'|].
  rewrite !build_block_txs.
  split; [apply last_snoc|]. split; [apply last_snoc|].
  split; [reflexivity|].
  split.
  { split; [apply int_from_bytes_big_nonneg|].
    pose proof (int_from_bytes_big_bound rnd) as Hbd. rewrite Hlen in Hbd.
    exact Hbd. }
  split; [reflexivity|]. split; [reflexivity|]. split; [reflexivity|].
  assert (Hcb : forall r, make_coinbase
            (coinbase_reward (get_height (block_template now m))
               (total_fees (mempool m))) (pubkey m)
            (fresh (dom (heap m))) rnd =
          make_coinbase r (pubkey m) (fresh (dom (heap m))) rnd' ->
          rnd = rnd').
  { intros r Heq. unfold make_coinbase in Heq.
    apply (f_equal inputs) in Heq. cbn [inputs] in Heq.
    apply int_from_bytes_big_inj; [congruence|].
    congruence. }
  split.
  - split; [apply Hcb|]. intros ->. reflexivity.
  - split; [|intros ->; reflexivity].
    intros Heq. apply app_inj_tail in Heq as [_ Heq]. apply (Hcb _ Heq).
Qed.

(** X3: the prefix the thread hashes is the serialized header without its
    last eight bytes: for a header that is some bytes followed by eight
    more, exactly those bytes; for a header of at most eight bytes, the
    empty string.  With a packed nonce appended, the message has the length
    of such a header again. *)
Theorem search_prefix_drops_nonce (m : Miner) (l : loc) (w : Worker) :
  let header := serialize_header (deref (heap m) l) in
  let prefix := w_prefix (enter_search m l w) in
  prefix = firstn (length header - 8) header /\
  length prefix = (length header - 8)%nat /\
  (forall p q, header = p ++ q -> length q = 8%nat -> prefix = p) /\
  ((length header <= 8)%nat -> prefix = []) /\
  (forall n packed, pack_Q n = Ok packed -> (8 <= length header)%nat ->
     length (prefix ++ packed) = length header).
Proof.
  intros header prefix.
  assert (Hp : prefix = drop_last8 header).
  { subst prefix. unfold enter_search. destruct (target_hash_of _); reflexivity. }
  rewrite Hp. unfold drop_last8. split; [reflexivity|].
  split; [rewrite length_firstn; lia|]. split.
  - intros p q Hh Hq. rewrite Hh, length_app, Hq.
    replace (length p + 8 - 8)%nat with (length p) by lia.
    rewrite firstn_app, Nat.sub_diag, firstn_all, firstn_O, app_nil_r.
    reflexivity.
  - split.
    + intros Hle. replace (length header - 8)%nat with 0%nat by lia.
      reflexivity.
    + intros n packed Hpk Hge.
      destruct (pack_Q_inv n packed Hpk) as (_ & Hl & _).
      rewrite length_app, length_firstn, Hl. lia.
Qed.

(** ** The threshold *)

Lemma below_pow2_iff_high_bits x k :
  0 <= x -> 0 <= k ->
  (x < 2 ^ k <-> forall i, k <= i -> Z.testbit x i = false).
Proof.
  intros Hx Hk. split.
  - intros Hlt i Hi. destruct (Z.eq_dec x 0) as [->|Hne].
    + apply Z.bits_0.
    + apply Z.bits_above_log2; [exact Hx|].
      assert (Z.log2 x < k) by (apply Z.log2_lt_pow2; lia). lia.
  - intros Hbits. destruct (Z.lt_ge_cases x (2 ^ k)) as [Hlt|Hge]; [exact Hlt|].
    assert (Hpos : 0 < x) by (pose proof (Z.pow_pos_nonneg 2 k); lia).
    assert (Hlog : k <= Z.log2 x) by (apply Z.log2_le_pow2; lia).
    pose proof (Z.bit_log2 x Hpos) as Hbit.
    rewrite (Hbits _ Hlog) in Hbit. discriminate.
Qed.

(** X4: the difficulty is a number of leading zero bits: when the
    difficulty [d] of the search is at most [8 * HASH_LEN], a packed nonce
    is a hit exactly when the digest, read as a number, has no bit set at
    position [8 * HASH_LEN - d] or above, that is when shifting it right by
    that many positions leaves nothing. *)
Theorem hit_iff_leading_zero_bits (m : Miner) (l : loc) (w : Worker) :
  let d := search_diff (reduce_local_diff m) (diff (deref (heap m) l)) in
  let w' := enter_search m l w in
  d <= 8 * HASH_LEN ->
  forall packed,
    let digest := int_from_bytes_big (crypto_h (w_prefix w' ++ packed)) in
    (is_hit (w_prefix w') (w_target_hash w') packed = true <->
     forall i, 8 * HASH_LEN - d <= i -> Z.testbit digest i = false) /\
    (is_hit (w_prefix w') (w_target_hash w') packed = true <->
     Z.shiftr digest (8 * HASH_LEN - d) = 0).
Proof.
  intros d w' Hle packed digest.
  destruct (enter_search_threshold m l w d eq_refl Hle) as [_ Ht].
  fold w' in Ht. rewrite Ht.
  pose proof (int_from_bytes_big_nonneg (crypto_h (w_prefix w' ++ packed)))
    as Hnn. fold digest in Hnn.
  assert (Hk : 0 <= 8 * HASH_LEN - d) by lia.
  assert (Hhit : is_hit (w_prefix w') (2 ^ (8 * HASH_LEN - d)) packed = true
                 <-> digest < 2 ^ (8 * HASH_LEN - d)) by apply is_hit_spec.
  split.
  - rewrite Hhit. apply below_pow2_iff_high_bits; assumption.
  - rewrite Hhit, Z.shiftr_div_pow2 by exact Hk.
    assert (0 < 2 ^ (8 * HASH_LEN - d)) by (apply Z.pow_pos_nonneg; lia).
    split.
    + intros Hlt. apply Z.div_small. lia.
    + intros Hz. apply Z.div_small_iff in Hz; lia.
Qed.

(** X5: the two ends of the range of the difficulty, for a hash whose
    digests have [HASH_LEN] bytes.  With a difficulty of 0 or less every
    nonce that can be packed is a hit, so a batch stops at its first nonce;
    with the difficulty [8 * HASH_LEN] the threshold is 1 and only the
    digest 0 is a hit. *)
Theorem threshold_edges (m : Miner) (l : loc) (w : Worker) :
  let d := search_diff (reduce_local_diff m) (diff (deref (heap m) l)) in
  let w' := enter_search m l w in
  0 <= HASH_LEN ->
  (forall bs, length (crypto_h bs) = Z.to_nat HASH_LEN) ->
  (d <= 0 ->
   forall n count, 0 <= n < 2 ^ 64 ->
     batch (S count) (w_prefix w') (w_target_hash w') n = BatchHit n) /\
  (d = 8 * HASH_LEN ->
   w_target_hash w' = 1 /\
   forall packed,
     is_hit (w_prefix w') (w_target_hash w') packed = true <->
     int_from_bytes_big (crypto_h (w_prefix w' ++ packed)) = 0).
Proof.
  intros d w' HL Hlen. split.
  - intros Hd n count Hn.
    destruct (enter_search_threshold m l w d eq_refl ltac:(lia)) as [_ Ht].
    fold w' in Ht.
    rewrite (batch_first _ _ _ _ _ (pack_Q_in_range n Hn)).
    assert (Hhit : is_hit (w_prefix w') (w_target_hash w') (to_bytes_big 8 n)
                   = true).
    { apply is_hit_spec. rewrite Ht.
      pose proof (int_from_bytes_big_bound
                    (crypto_h (w_prefix w' ++ to_bytes_big 8 n))) as Hb.
      rewrite Hlen, Z2Nat.id in Hb by exact HL.
      replace (256 ^ HASH_LEN) with (2 ^ (8 * HASH_LEN)) in Hb
        by (change 256 with (2 ^ 8); rewrite <- Z.pow_mul_r by lia;
            reflexivity).
      assert (2 ^ (8 * HASH_LEN) <= 2 ^ (8 * HASH_LEN - d))
        by (apply Z.pow_le_mono_r; lia).
      lia. }
    rewrite Hhit. reflexivity.
  - intros Hd.
    destruct (enter_search_threshold m l w d eq_refl ltac:(lia)) as [_ Ht].
    fold w' in Ht. rewrite Ht, Hd, Z.sub_diag. split; [reflexivity|].
    intros packed. rewrite is_hit_spec.
    pose proof (int_from_bytes_big_nonneg (crypto_h (w_prefix w' ++ packed))).
    change (2 ^ 0) with 1. lia.
Qed.

(** X6: what the reduced local difficulty does to the threshold, for a
    block of difficulty [d] with [1 <= d <= 8 * HASH_LEN]: the reduced
    threshold is never below the regular one, so every hit at the regular
    difficulty is a hit at the reduced one; from [d = 11] on it is exactly
    [2 ^ 10] times the regular threshold, ten leading zero bits less. *)
Theorem reduced_threshold_relaxes (d : Z) :
  1 <= d <= 8 * HASH_LEN ->
  exists t t_red,
    target_hash_of (search_diff false d) = Ok t /\
    target_hash_of (search_diff true d) = Ok t_red /\
    t <= t_red /\
    (11 <= d -> t_red = 2 ^ 10 * t) /\
    (d <= 11 -> t_red = 2 ^ (8 * HASH_LEN - 1)) /\
    (forall prefix packed,
       is_hit prefix t packed = true -> is_hit prefix t_red packed = true).
Proof.
  intros [H1 H2]. unfold target_hash_of, search_diff.
  exists (2 ^ (8 * HASH_LEN - d)), (2 ^ (8 * HASH_LEN - Z.max (d - 10) 1)).
  split; [apply shl_one_nonneg; lia|].
  split; [apply shl_one_nonneg; lia|].
  assert (Hle : 2 ^ (8 * HASH_LEN - d)
                <= 2 ^ (8 * HASH_LEN - Z.max (d - 10) 1))
    by (apply Z.pow_le_mono_r; lia).
  split; [exact Hle|]. split.
  - intros H11. replace (Z.max (d - 10) 1) with (d - 10) by lia.
    replace (8 * HASH_LEN - (d - 10)) with (10 + (8 * HASH_LEN - d)) by lia.
    apply Z.pow_add_r; lia.
  - split.
    + intros H11. replace (Z.max (d - 10) 1) with 1 by lia. reflexivity.
    + intros prefix packed Hh. apply is_hit_spec in Hh. apply is_hit_spec.
      lia.
Qed.

(** ** Batches *)

Lemma batch_nonce_le count prefix t n0 :
  match batch count prefix t n0 with
  | BatchHit n | BatchRaise _ n => n < n0 + Z.of_nat count
  | BatchDone n => n = n0 + Z.of_nat count
  end.
Proof.
  revert n0. induction count as [|count IH]; intros n0; cbn [batch]; [lia|].
  destruct (pack_Q n0); [|lia].
  destruct (is_hit prefix t a); [lia|].
  specialize (IH (n0 + 1)).
  destruct (batch count prefix t (n0 + 1)); lia.
Qed.

Lemma batch_in_range_no_raise count prefix t n0 :
  0 <= n0 -> n0 + Z.of_nat count <= 2 ^ 64 ->
  forall e n, batch count prefix t n0 <> BatchRaise e n.
Proof.
  revert n0. induction count as [|count IH]; intros n0 H0 Hmax e n;
    cbn [batch]; [discriminate|].
  rewrite pack_Q_in_range by lia.
  destruct (is_hit _ _ _); [discriminate|]. apply IH; lia.
Qed.

(** X7: a batch reports the first hit of its window and nothing else: from
    a start [n0 >= 0], the batch of [count] nonces ends with the hit [n],
    a nonce below [2 ^ 64], exactly when [n] lies in the window, its digest
    is below the threshold and every nonce of the window before it
    missed. *)
Theorem batch_reports_first_hit (count : nat) (prefix : bytes) (t n0 n : Z) :
  0 <= n0 ->
  n < 2 ^ 64 ->
  (batch count prefix t n0 = BatchHit n <->
   n0 <= n < n0 + Z.of_nat count /\
   is_hit prefix t (to_bytes_big 8 n) = true /\
   forall k, n0 <= k < n -> is_hit prefix t (to_bytes_big 8 k) = false).
Proof.
  intros H0 Hn. split.
  - intros Hb. apply batch_hit_sound in Hb as (Hr & (p & Hp & Hh) & Hbefore).
    split; [exact Hr|]. split.
    + rewrite pack_Q_in_range in Hp by lia.
      assert (p = to_bytes_big 8 n) as -> by congruence. exact Hh.
    + intros k Hk. destruct (Hbefore k Hk) as (q & Hq & Hm).
      rewrite pack_Q_in_range in Hq by lia.
      assert (q = to_bytes_big 8 k) as -> by congruence. exact Hm.
  - revert n0 H0. induction count as [|count IH]; intros n0 H0 (Hr & Hh & Hm).
    + cbn in Hr. lia.
    + cbn [batch]. rewrite pack_Q_in_range by lia.
      destruct (Z.eq_dec n0 n) as [->|Hne].
      * rewrite Hh. reflexivity.
      * rewrite Hm by lia. apply IH; [lia|].
        split; [lia|]. split; [exact Hh|]. intros k Hk. apply Hm. lia.
Qed.

(** X8: a turn of the search loop in which no nonce hits: the counter
    moves on by exactly 100000, the hashrate sample of those 100000 hashes
    is stored, nothing else of the miner changes, and the thread stays in
    the search with its target, prefix and threshold, unless the stop event
    makes it return. *)
Theorem batch_without_hit (t0 t1 : Float) (m : Miner) (w : Worker) (r : Float) :
  pc w = Searching ->
  retarget_event m = false ->
  0 <= w_nonce w ->
  w_nonce w + 100000 <= 2 ^ 64 ->
  (forall k, w_nonce w <= k < w_nonce w + 100000 ->
     is_hit (w_prefix w) (w_target_hash w) (to_bytes_big 8 k) = false) ->
  hashrate_of 100000 t0 t1 = Some r ->
  mine_step t0 t1 m w =
  (set_hashrate r m,
   set_pc (if stop_event m then Terminated else Searching)
     (set_w_nonce (w_nonce w + 100000) w)).
Proof.
  intros Hpc Hr H0 Hmax Hmiss Hrate.
  assert (Hsize : Z.of_nat BATCH_SIZE = 100000)
    by (unfold BATCH_SIZE; apply Z2Nat.id; lia).
  unfold mine_step. rewrite Hpc. unfold mine_search. rewrite Hr.
  rewrite batch_all_miss; rewrite ?Hsize; try assumption.
  unfold finish_batch. cbn [w_nonce set_w_nonce].
  replace (w_nonce w + 100000 - w_nonce w) with 100000 by lia.
  rewrite Hrate. cbn [stop_event set_hashrate].
  destruct (stop_event m); reflexivity.
Qed.

Lemma batch_raise_out_of_range count prefix t n0 e n :
  batch count prefix t n0 = BatchRaise e n ->
  e = StructError /\ n0 <= n /\ ~ (0 <= n < 2 ^ 64).
Proof.
  revert n0. induction count as [|count IH]; intros n0 Hb; [discriminate|].
  cbn [batch] in Hb. destruct (pack_Q n0) as [p|e'] eqn:Hp.
  - destruct (is_hit prefix t p); [discriminate|].
    apply IH in Hb as (He & Hle & Hn). split; [exact He|]. split; [lia|].
    exact Hn.
  - assert (e' = e /\ n0 = n) as [-> ->] by (split; congruence).
    split; [apply (pack_Q_raises n), Hp|]. split; [lia|].
    intros Hr. rewrite (pack_Q_in_range n Hr) in Hp. discriminate.
Qed.

Lemma mine_step_nonce_le t0 t1 (m : Miner) w :
  w_nonce (snd (mine_step t0 t1 m w)) <= w_nonce w + 100000.
Proof.
  assert (Hsize : Z.of_nat BATCH_SIZE = 100000)
    by (unfold BATCH_SIZE; apply Z2Nat.id; lia).
  unfold mine_step. destruct (pc w).
  - rewrite mine_wait_nonce. lia.
  - unfold mine_search. destruct (retarget_event m); [simpl; lia|].
    pose proof (batch_nonce_le BATCH_SIZE (w_prefix w) (w_target_hash w)
                  (w_nonce w)) as Hb.
    destruct (batch _ _ _ _) as [n|n|e n].
    + cbn [w_target_block set_w_nonce].
      destruct (w_target_block w); [rewrite finish_batch_nonce|];
        cbn [snd w_nonce set_w_nonce set_w_target_block set_pc]; lia.
    + rewrite finish_batch_nonce. cbn [w_nonce set_w_nonce]. lia.
    + cbn [snd w_nonce set_w_nonce set_pc]. lia.
  - simpl. lia.
  - simpl. lia.
Qed.

(** A thread that died of [struct.error] has a counter of [2 ^ 64] or
    more. *)
Lemma struct_error_counter seed w :
  length seed = 4%nat ->
  rtc thread_step (mine_init seed) w ->
  0 <= w_nonce w /\ (pc w = Crashed StructError -> 2 ^ 64 <= w_nonce w).
Proof.
  intros Hlen Hreach. revert w Hreach.
  apply (rtc_ind_r (fun w => 0 <= w_nonce w /\
                      (pc w = Crashed StructError -> 2 ^ 64 <= w_nonce w))).
  - split; [apply mine_init_nonce_range, Hlen|]. discriminate.
  - intros w1 w2 _ Hstep [H0 Hdead].
    pose proof (thread_step_nonce_mono _ _ Hstep) as Hmono.
    split; [lia|]. intros Hpc.
    destruct Hstep as (t0 & t1 & m & <-).
    unfold mine_step in *. destruct (pc w1) eqn:Hpc1.
    + exfalso. revert Hpc.
      unfold mine_wait, enter_search, target_hash_of, shl_one.
      cbn [stop_event set_retarget_event].
      destruct (stop_event m); [discriminate|].
      destruct (target_block m); [|discriminate].
      cbn [snd]. destruct (Z.ltb _ 0); discriminate.
    + revert Hpc Hmono. unfold mine_search.
      destruct (retarget_event m); [discriminate|].
      destruct (batch _ _ _ _) as [n|n|e n] eqn:Hb.
      * cbn [w_target_block set_w_nonce].
        destruct (w_target_block w1); [|discriminate].
        unfold finish_batch. destruct (hashrate_of _ t0 t1); [|discriminate].
        cbn [stop_event set_hashrate]. destruct (stop_event _); discriminate.
      * unfold finish_batch. destruct (hashrate_of _ t0 t1); [|discriminate].
        cbn [stop_event set_hashrate]. destruct (stop_event _); discriminate.
      * cbn [snd pc w_nonce set_pc set_w_nonce]. intros _ _.
        apply batch_raise_out_of_range in Hb as (_ & Hle & Hn). lia.
    + cbn [snd] in Hpc. congruence.
    + cbn [snd] in Hpc, Hmono |- *. apply Hdead. congruence.
Qed.

(** X9: the packing error is out of reach for a long time: a thread
    started from four seed bytes whose counter is still at most
    [2 ^ 64 - 100000] has not died of [struct.error] and does not in its
    next step, and that step moves the counter on by at most 100000. *)
Theorem struct_error_out_of_reach (seed : bytes) (w : Worker)
  (t0 t1 : Float) (m : Miner) :
  length seed = 4%nat ->
  rtc thread_step (mine_init seed) w ->
  w_nonce w + 100000 <= 2 ^ 64 ->
  pc w <> Crashed StructError /\
  pc (snd (mine_step t0 t1 m w)) <> Crashed StructError /\
  w_nonce w <= w_nonce (snd (mine_step t0 t1 m w)) <= w_nonce w + 100000.
Proof.
  intros Hlen Hreach Hmax.
  destruct (struct_error_counter seed w Hlen Hreach) as [H0 Hdead].
  assert (Halive : pc w <> Crashed StructError)
    by (intros Hpc; apply Hdead in Hpc; lia).
  assert (Hsize : Z.of_nat BATCH_SIZE = 100000)
    by (unfold BATCH_SIZE; apply Z2Nat.id; lia).
  split; [exact Halive|].
  split; [|split; [apply mine_step_nonce_mono|apply mine_step_nonce_le]].
  unfold mine_step. destruct (pc w) eqn:Hpc.
  - unfold mine_wait, enter_search, target_hash_of, shl_one.
    cbn [stop_event set_retarget_event].
    destruct (stop_event m); [discriminate|].
    destruct (target_block m); [|discriminate].
    cbn [snd]. destruct (Z.ltb _ 0); discriminate.
  - unfold mine_search. destruct (retarget_event m); [discriminate|].
    pose proof (batch_in_range_no_raise BATCH_SIZE (w_prefix w)
                  (w_target_hash w) (w_nonce w) H0 ltac:(lia)) as Hno.
    destruct (batch _ _ _ _) as [n|n|e n]; [| |exfalso; eapply Hno; eauto].
    + cbn [w_target_block set_w_nonce].
      destruct (w_target_block w); [|discriminate].
      unfold finish_batch. destruct (hashrate_of _ t0 t1); [|discriminate].
      cbn [stop_event set_hashrate]. destruct (stop_event _); discriminate.
    + unfold finish_batch. destruct (hashrate_of _ t0 t1); [|discriminate].
      cbn [stop_event set_hashrate]. destruct (stop_event _); discriminate.
  - cbn [snd]. rewrite Hpc. discriminate.
  - cbn [snd]. rewrite Hpc. exact Halive.
Qed.

(** ** The thread and the controller *)

Lemma mine_run_ended clock (m : Miner) w :
  ended w = true -> mine_run clock m w = (m, w).
Proof.
  unfold ended. intros He.
  induction clock as [|[t0 t1] clock IH]; [reflexivity|].
  cbn [mine_run]. unfold mine_step.
  destruct (pc w); try discriminate; exact IH.
Qed.

Lemma finish_batch_heap t0 t1 s (m : Miner) w :
  heap (fst (finish_batch t0 t1 s m w)) = heap m.
Proof.
  unfold finish_batch. destruct (hashrate_of _ t0 t1); [|reflexivity].
  cbn [stop_event set_hashrate]. destruct (stop_event m); reflexivity.
Qed.

Local Ltac frame_refl :=
  cbn; repeat split; first [reflexivity | assumption | congruence].

(** What a step of the thread leaves alone in the miner. *)
Lemma mine_step_frame t0 t1 (m : Miner) w :
  let m' := fst (mine_step t0 t1 m w) in
  blockchain m' = blockchain m /\ mempool m' = mempool m /\
  pubkey m' = pubkey m /\ reduce_local_diff m' = reduce_local_diff m /\
  mining_thread m' = mining_thread m /\ stop_event m' = stop_event m /\
  dom (heap m') = dom (heap m).
Proof.
  assert (Hfin : forall s (m0 : Miner) w0,
            let m1 := fst (finish_batch t0 t1 s m0 w0) in
            blockchain m1 = blockchain m0 /\ mempool m1 = mempool m0 /\
            pubkey m1 = pubkey m0 /\
            reduce_local_diff m1 = reduce_local_diff m0 /\
            mining_thread m1 = mining_thread m0 /\
            stop_event m1 = stop_event m0 /\ heap m1 = heap m0).
  { intros s m0 w0. unfold finish_batch.
    destruct (hashrate_of _ t0 t1); [|frame_refl].
    cbn [stop_event set_hashrate]. destruct (stop_event m0) eqn:Hs0; frame_refl. }
  unfold mine_step. destruct (pc w); cbv zeta.
  - unfold mine_wait. cbn [stop_event set_retarget_event].
    destruct (stop_event m) eqn:Hs; [frame_refl|].
    destruct (target_block m); frame_refl.
  - unfold mine_search. destruct (retarget_event m); [frame_refl|].
    destruct (batch _ _ _ _) as [n|n|e n]; [| |frame_refl].
    + cbn [w_target_block set_w_nonce].
      destruct (w_target_block w) as [l|]; [|frame_refl].
      destruct (Hfin (w_nonce w) (publish_hit l n m)
                  (set_w_target_block None (set_w_nonce n w)))
        as (-> & -> & -> & -> & -> & -> & ->).
      unfold publish_hit.
      cbn [blockchain mempool pubkey reduce_local_diff mining_thread
           stop_event heap set_retarget_event set_target_block
           set_mined_block set_heap].
      repeat (split; [reflexivity|]).
      apply set_eq. intros l'. rewrite !elem_of_dom.
      destruct (decide (l = l')) as [->|Hne].
      * rewrite lookup_alter_eq. destruct (heap m !! l'); cbn;
          split; intros [? ?]; eauto; discriminate.
      * rewrite lookup_alter_ne by exact Hne. reflexivity.
    + destruct (Hfin (w_nonce w) m (set_w_nonce n w))
        as (-> & -> & -> & -> & -> & -> & ->).
      frame_refl.
  - frame_refl.
  - frame_refl.
Qed.

(** What a step of the thread does to the store: nothing, or it sets the
    nonce of the block the thread holds. *)
Lemma mine_step_heap t0 t1 (m : Miner) w :
  heap (fst (mine_step t0 t1 m w)) = heap m \/
  exists l n, w_target_block w = Some l /\
    heap (fst (mine_step t0 t1 m w)) = alter (set_nonce n) l (heap m).
Proof.
  unfold mine_step. destruct (pc w); [| |left; reflexivity|left; reflexivity].
  - left. unfold mine_wait. cbn [stop_event set_retarget_event].
    destruct (stop_event m); [reflexivity|].
    destruct (target_block m); reflexivity.
  - unfold mine_search. destruct (retarget_event m); [left; reflexivity|].
    destruct (batch _ _ _ _) as [n|n|e n]; [| |left; reflexivity].
    + cbn [w_target_block set_w_nonce].
      destruct (w_target_block w) as [l|]; [|left; reflexivity].
      right. exists l, n. split; [reflexivity|]. apply finish_batch_heap.
    + left. apply finish_batch_heap.
Qed.

Lemma set_nonce_same (b : Block ChainHead) : set_nonce (nonce b) b = b.
Proof. destruct b; reflexivity. Qed.

Lemma set_nonce_twice n n' (b : Block ChainHead) :
  set_nonce n (set_nonce n' b) = set_nonce n b.
Proof. reflexivity. Qed.

Lemma mine_step_blocks t0 t1 (m : Miner) w l b :
  heap m !! l = Some b ->
  exists n, heap (fst (mine_step t0 t1 m w)) !! l = Some (set_nonce n b).
Proof.
  intros Hb. destruct (mine_step_heap t0 t1 m w) as [->|(l0 & n & _ & ->)].
  - exists (nonce b). rewrite set_nonce_same. exact Hb.
  - destruct (decide (l0 = l)) as [->|Hne].
    + exists n. rewrite lookup_alter_eq, Hb. reflexivity.
    + exists (nonce b). rewrite lookup_alter_ne by exact Hne.
      rewrite set_nonce_same. exact Hb.
Qed.

(** X10: the thread polls for its target: while the miner has no target and
    the stop event is not set, any number of steps leave the thread at the
    head of the wait loop with its counter untouched, and all they do to
    the miner is clear the retarget event. *)
Theorem waiting_without_target (clock : list (Float * Float)) (m : Miner)
  (w : Worker) :
  pc w = Waiting ->
  target_block m = None ->
  stop_event m = false ->
  clock <> [] ->
  mine_run clock m w =
  (set_retarget_event false m, set_pc Waiting (set_w_target_block None w)).
Proof.
  intros Hpc Ht Hs Hne.
  assert (Hstep : forall t0 t1 (m0 : Miner) w0,
            pc w0 = Waiting -> target_block m0 = None ->
            stop_event m0 = false ->
            mine_step t0 t1 m0 w0 =
            (set_retarget_event false m0,
             set_pc Waiting (set_w_target_block None w0))).
  { intros t0 t1 m0 w0 Hpc0 Ht0 Hs0. unfold mine_step. rewrite Hpc0.
    unfold mine_wait. cbn [stop_event set_retarget_event].
    rewrite Hs0, Ht0. reflexivity. }
  destruct clock as [|[t0 t1] clock]; [congruence|]. clear Hne.
  cbn [mine_run]. rewrite (Hstep t0 t1 m w Hpc Ht Hs).
  set (m1 := set_retarget_event false m).
  set (w1 := set_pc Waiting (set_w_target_block None w)).
  induction clock as [|[t2 t3] clock IH]; [reflexivity|].
  cbn [mine_run]. rewrite (Hstep t2 t3 m1 w1 eq_refl Ht Hs). exact IH.
Qed.

(** X11: stopping is cooperative and takes at most one batch: once
    [stop_mining] has succeeded, the thread has returned or died after two
    of its steps at the latest, whatever it was doing, it has moved its
    counter on by at most 100000 in them, and it never clears the stop
    event. *)
Theorem stop_ends_thread (m : Miner) (w : Worker) (c1 c2 : Float * Float)
  (clock : list (Float * Float)) :
  res (stop_mining m) = Ok tt ->
  let r := mine_run (c1 :: c2 :: clock) (post (stop_mining m)) w in
  stop_event (post (stop_mining m)) = true /\
  mining_thread (post (stop_mining m)) = None /\
  ended (snd r) = true /\
  stop_event (fst r) = true /\
  w_nonce w <= w_nonce (snd r) <= w_nonce w + 100000.
Proof.
  intros Hok.
  assert (Hstop : stop_event (post (stop_mining m)) = true /\
                  mining_thread (post (stop_mining m)) = None).
  { revert Hok. unfold stop_mining.
    destruct (mining_thread m); [split; reflexivity|discriminate]. }
  destruct Hstop as [Hstop Hth].
  set (m0 := post (stop_mining m)) in *. clearbody m0. clear Hok.
  cbv zeta. split; [exact Hstop|]. split; [exact Hth|].
  destruct c1 as [t0 t1], c2 as [t2 t3].
  cbn [mine_run].
  assert (Hfirst : forall ta tb (ma : Miner) wa,
            stop_event ma = true ->
            ended (snd (mine_step ta tb ma wa)) = true \/
            (pc (snd (mine_step ta tb ma wa)) = Waiting /\
             pc wa = Searching /\
             w_nonce (snd (mine_step ta tb ma wa)) = w_nonce wa)).
  { intros ta tb ma wa Hs. unfold mine_step, ended.
    destruct (pc wa) eqn:Hpc.
    - left. unfold mine_wait. cbn [stop_event set_retarget_event].
      rewrite Hs. reflexivity.
    - unfold mine_search. destruct (retarget_event ma); [right; auto|].
      left. destruct (batch _ _ _ _) as [n|n|e n]; [| |reflexivity].
      + cbn [w_target_block set_w_nonce].
        destruct (w_target_block wa); [|reflexivity].
        unfold finish_batch. destruct (hashrate_of _ ta tb); [|reflexivity].
        cbn [stop_event set_hashrate publish_hit set_retarget_event
             set_target_block set_mined_block set_heap].
        rewrite Hs. reflexivity.
      + unfold finish_batch. destruct (hashrate_of _ ta tb); [|reflexivity].
        cbn [stop_event set_hashrate]. rewrite Hs. reflexivity.
    - left. cbn [snd]. rewrite Hpc. reflexivity.
    - left. cbn [snd]. rewrite Hpc. reflexivity. }
  pose proof (mine_step_frame t0 t1 m0 w) as Hf1. cbv zeta in Hf1.
  destruct Hf1 as (_ & _ & _ & _ & _ & Hs1 & _). rewrite Hstop in Hs1.
  pose proof (mine_step_nonce_mono t0 t1 m0 w) as Hmono1.
  pose proof (mine_step_nonce_le t0 t1 m0 w) as Hle1.
  destruct (mine_step t0 t1 m0 w) as [m1 w1] eqn:Hstep1.
  cbn [fst snd] in *.
  pose proof (mine_step_frame t2 t3 m1 w1) as Hf2. cbv zeta in Hf2.
  destruct Hf2 as (_ & _ & _ & _ & _ & Hs2 & _). rewrite Hs1 in Hs2.
  destruct (Hfirst t0 t1 m0 w Hstop) as [Hend|(Hpc1 & _ & Hn1)];
    rewrite Hstep1 in *; cbn [snd] in *.
  - pose proof (mine_run_ended ((t2, t3) :: clock) m1 w1 Hend) as Hrest.
    cbn [mine_run] in Hrest. rewrite Hrest. cbn [fst snd].
    split; [exact Hend|]. split; [exact Hs1|]. lia.
  - assert (Hstep2 : mine_step t2 t3 m1 w1 =
              (set_retarget_event false m1,
               set_pc Terminated (set_w_target_block (target_block m1) w1))).
    { unfold mine_step. rewrite Hpc1. unfold mine_wait.
      cbn [stop_event set_retarget_event]. rewrite Hs1. reflexivity. }
    rewrite Hstep2. cbn [fst snd].
    rewrite mine_run_ended by reflexivity. cbn [fst snd].
    split; [reflexivity|]. split; [exact Hs1|].
    cbn [w_nonce set_pc set_w_target_block]. lia.
Qed.

(** X12: the thread keeps to its own business: however many steps it
    takes, it leaves the chain, the mempool and their listeners, the reward
    address, the difficulty mode, the thread handle and the stop event of
    the miner as they were, it neither creates nor removes a block, and in
    the blocks it changes nothing but the nonce. *)
Theorem thread_frame (clock : list (Float * Float)) (m : Miner) (w : Worker) :
  let m' := fst (mine_run clock m w) in
  blockchain m' = blockchain m /\ mempool m' = mempool m /\
  pubkey m' = pubkey m /\ reduce_local_diff m' = reduce_local_diff m /\
  mining_thread m' = mining_thread m /\ stop_event m' = stop_event m /\
  dom (heap m') = dom (heap m) /\
  (forall l b, heap m !! l = Some b ->
     exists n, heap m' !! l = Some (set_nonce n b)).
Proof.
  revert m w. induction clock as [|[t0 t1] clock IH]; intros m w.
  - cbn. repeat (split; [reflexivity|]). intros l b Hb. exists (nonce b).
    rewrite set_nonce_same. exact Hb.
  - cbn [mine_run].
    pose proof (mine_step_frame t0 t1 m w) as Hf. cbv zeta in Hf.
    pose proof (mine_step_blocks t0 t1 m w) as Hblk.
    destruct (mine_step t0 t1 m w) as [m1 w1]. cbn [fst] in Hf, Hblk.
    specialize (IH m1 w1). cbv zeta in IH.
    destruct Hf as (F1 & F2 & F3 & F4 & F5 & F6 & F7).
    destruct IH as (H1 & H2 & H3 & H4 & H5 & H6 & H7 & H8).
    repeat (split; [congruence|]).
    intros l b Hb. destruct (Hblk l b Hb) as [n1 Hb1].
    destruct (H8 l _ Hb1) as [n2 Hb2]. exists n2. exact Hb2.
Qed.

(** X13: how starting and stopping follow each other.  On a miner without
    a thread, [start_mining] succeeds and makes a second start fail;
    [stop_mining] then succeeds and makes a second stop and [get_hashrate]
    fail, after which the miner can be started again.  The stop event is
    clear after a start and set after a stop.  Stopping loses nothing: the
    candidate stays installed, and a block mined before can still be
    collected, [get_mined_block] working whether or not a thread is
    registered. *)
Theorem start_stop_alternate (now now' : Z) (rnd rnd' : bytes) (m : Miner) :
  mining_thread m = None ->
  let m1 := post (start_mining now rnd m) in
  let m2 := post (stop_mining m1) in
  let m3 := post (start_mining now' rnd' m2) in
  res (start_mining now rnd m) = Ok tt /\
  res (start_mining now' rnd' m1) = Raise MinerIsRunningException /\
  res (stop_mining m1) = Ok tt /\
  res (stop_mining m2) = Raise MinerIsNotRunningException /\
  res (get_hashrate m2) = Raise MinerIsNotRunningException /\
  res (start_mining now' rnd' m2) = Ok tt /\
  stop_event m1 = false /\ stop_event m2 = true /\ stop_event m3 = false /\
  target_block m2 = target_block m1 /\
  heap m2 = heap m1 /\
  mined_block m2 = mined_block m /\
  hashrate m2 = hashrate m /\
  res (get_mined_block m2) = Ok (mined_block m) /\
  res (get_hashrate m1) = Ok (hashrate m).
Proof.
  intros Hth m1 m2 m3. subst m3 m2 m1.
  rewrite (start_mining_idle now rnd m Hth). cbn [post res].
  set (m0 := set_retarget_event false _).
  set (m1 := set_mining_thread (Some MinerThread) (post (retarget now rnd m0))).
  assert (H1 : mining_thread m1 = Some MinerThread) by reflexivity.
  rewrite (start_mining_running now' rnd' m1 _ H1). cbn [res].
  unfold stop_mining, get_hashrate, get_mined_block. rewrite H1.
  cbn [post res].
  set (m2 := set_mining_thread None _).
  assert (H2 : mining_thread m2 = None) by reflexivity.
  rewrite H2, (start_mining_idle now' rnd' m2 H2). cbn [post res].
  repeat (split; [reflexivity|]). reflexivity.
Qed.

(** X14: the hashrate that [get_hashrate] reports is the sample of the last
    batch that came to its end: after a turn of the search loop that left
    the thread alive or made it return, the stored hashrate is the quotient
    computed from the number of nonces the turn consumed, at most 100000,
    and the two clock readings, and [get_hashrate] returns it; a turn in
    which the thread dies leaves the stored hashrate as it was. *)
Theorem hashrate_is_last_sample (t0 t1 : Float) (m : Miner) (w : Worker)
  (th : Thread) :
  pc w = Searching ->
  retarget_event m = false ->
  mining_thread m = Some th ->
  let m' := fst (mine_step t0 t1 m w) in
  let w' := snd (mine_step t0 t1 m w) in
  0 <= w_nonce w' - w_nonce w <= 100000 /\
  (pc w' = Searching \/ pc w' = Terminated ->
   hashrate_of (w_nonce w' - w_nonce w) t0 t1 = Some (hashrate m') /\
   res (get_hashrate m') = Ok (hashrate m')) /\
  (forall e, pc w' = Crashed e -> hashrate m' = hashrate m) /\
  pc w' <> Waiting.
Proof.
  intros Hpc Hr Hth m' w'.
  pose proof (mine_step_nonce_mono t0 t1 m w) as Hmono.
  pose proof (mine_step_nonce_le t0 t1 m w) as Hle.
  pose proof (mine_step_frame t0 t1 m w) as Hf. cbv zeta in Hf.
  destruct Hf as (_ & _ & _ & _ & Hth' & _). fold m' in Hth'.
  fold w' in Hmono, Hle. split; [lia|].
  assert (Hget : res (get_hashrate m') = Ok (hashrate m')).
  { unfold get_hashrate. rewrite Hth', Hth. reflexivity. }
  assert (Hfin : forall (m0 : Miner) w0,
            hashrate m0 = hashrate m ->
            let r := finish_batch t0 t1 (w_nonce w) m0 w0 in
            (pc (snd r) = Searching \/ pc (snd r) = Terminated ->
             hashrate_of (w_nonce (snd r) - w_nonce w) t0 t1
             = Some (hashrate (fst r))) /\
            (forall e, pc (snd r) = Crashed e -> hashrate (fst r) = hashrate m) /\
            pc (snd r) <> Waiting).
  { intros m0 w0 Hh. unfold finish_batch.
    destruct (hashrate_of (w_nonce w0 - w_nonce w) t0 t1) as [r|] eqn:Hrate.
    - cbn [stop_event set_hashrate].
      destruct (stop_event m0); cbn; (split; [intros _; exact Hrate|]);
        (split; [intros e He; discriminate|discriminate]).
    - cbn. split; [intros [H|H]; discriminate|].
      split; [intros; exact Hh|discriminate]. }
  revert Hget. subst m' w'. unfold mine_step. rewrite Hpc.
  unfold mine_search. rewrite Hr.
  destruct (batch _ _ _ _) as [n|n|e n].
  - cbn [w_target_block set_w_nonce].
    destruct (w_target_block w) as [l|].
    + intros Hget.
      destruct (Hfin (publish_hit l n m)
                  (set_w_target_block None (set_w_nonce n w)) eq_refl)
        as (Ha & Hb & Hc).
      split; [intros Hp; split; [apply Ha, Hp|exact Hget]|].
      split; [exact Hb|exact Hc].
    + intros _. cbn. split; [intros [H|H]; discriminate|].
      split; [reflexivity|discriminate].
  - intros Hget.
    destruct (Hfin m (set_w_nonce n w) eq_refl) as (Ha & Hb & Hc).
    split; [intros Hp; split; [apply Ha, Hp|exact Hget]|].
    split; [exact Hb|exact Hc].
  - intros _. cbn. split; [intros [H|H]; discriminate|].
    split; [reflexivity|discriminate].
Qed.

(** X15: a retarget reaches a searching thread: when [retarget] has
    installed a new candidate and the stop event is not set, a thread at the
    head of the search loop gives up its block without hashing, and with its
    second step it holds the new candidate, with the prefix of its header
    and the threshold of its difficulty; the counter is where it was, the
    retarget event is clear again, and the new candidate is still the
    target of the miner. *)
Theorem retarget_reaches_thread (now : Z) (rnd : bytes) (m : Miner)
  (w : Worker) (c1 c2 : Float * Float) :
  pc w = Searching ->
  stop_event m = false ->
  let l := fresh (dom (heap m)) in
  let blk := build_block now rnd m l in
  let r := mine_run [c1; c2] (post (retarget now rnd m)) w in
  w_target_block (snd r) = Some l /\
  w_prefix (snd r) = drop_last8 (serialize_header blk) /\
  w_nonce (snd r) = w_nonce w /\
  diff blk = get_next_diff (head (blockchain m)) /\
  pc (snd r) =
    match target_hash_of (search_diff (reduce_local_diff m) (diff blk)) with
    | Ok _ => Searching
    | Raise e => Crashed e
    end /\
  (forall t, target_hash_of (search_diff (reduce_local_diff m) (diff blk))
             = Ok t -> w_target_hash (snd r) = t) /\
  retarget_event (fst r) = false /\
  target_block (fst r) = Some l /\
  heap (fst r) !! l = Some blk /\
  mined_block (fst r) = mined_block m /\
  hashrate (fst r) = hashrate m.
Proof.
  intros Hpc Hs l blk r. subst r. destruct c1 as [t0 t1], c2 as [t2 t3].
  cbn [mine_run]. rewrite retarget_post. fold l. fold blk.
  set (m1 := Build_Miner _ _ _ _ _ _ _ _ _ _ _).
  assert (Hstep1 : mine_step t0 t1 m1 w =
            (m1, set_pc Waiting (set_w_target_block None w))).
  { unfold mine_step. rewrite Hpc. reflexivity. }
  rewrite Hstep1.
  assert (Hderef : deref (heap (set_retarget_event false m1)) l = blk).
  { unfold deref. cbn [heap set_retarget_event m1].
    rewrite lookup_insert_eq. reflexivity. }
  assert (Hstep2 : mine_step t2 t3 m1
                     (set_pc Waiting (set_w_target_block None w)) =
            (set_retarget_event false m1,
             enter_search (set_retarget_event false m1) l
               (set_w_target_block (Some l)
                  (set_pc Waiting (set_w_target_block None w))))).
  { unfold mine_step. cbn [pc set_pc]. unfold mine_wait.
    cbn [stop_event set_retarget_event m1 target_block]. rewrite Hs.
    reflexivity. }
  rewrite Hstep2. cbn [fst snd]. unfold enter_search. rewrite Hderef.
  change (reduce_local_diff (set_retarget_event false m1))
    with (reduce_local_diff m).
  destruct (target_hash_of (search_diff (reduce_local_diff m) (diff blk)))
    as [t|e] eqn:Hth.
  - cbn. repeat (split; [reflexivity|]).
    split; [intros t' Ht'; congruence|].
    repeat (split; [reflexivity|]).
    split; [apply lookup_insert_eq|]. split; reflexivity.
  - cbn. repeat (split; [reflexivity|]).
    split; [intros t' Ht'; discriminate|].
    repeat (split; [reflexivity|]).
    split; [apply lookup_insert_eq|]. split; reflexivity.
Qed.

(** X16: a new reward address counts from the next retarget on:
    [set_reward_address] changes nothing but the address, so the candidate
    being searched and a block already mined still pay the old one, and the
    coinbase of the next candidate pays the same amount to the new
    address. *)
Theorem reward_address_next_retarget (pk : bytes) (now : Z) (rnd : bytes)
  (m : Miner) :
  let m' := set_reward_address pk m in
  pubkey m' = pk /\
  target_block m' = target_block m /\
  mined_block m' = mined_block m /\
  heap m' = heap m /\
  mining_thread m' = mining_thread m /\
  (heap m ⊆ heap (post (retarget now rnd m'))) /\
  exists l blk cb out,
    target_block (post (retarget now rnd m')) = Some l /\
    heap (post (retarget now rnd m')) !! l = Some blk /\
    last (txs blk) = Some cb /\
    outputs cb = [out] /\
    out_pubkey out = pk /\
    amount out =
      coinbase_reward (get_height (block_template now m))
        (total_fees (mempool m)) /\
    cb = make_coinbase (amount out) pk l rnd.
Proof.
  intros m'. repeat (split; [reflexivity|]).
  destruct (retarget_candidate now rnd m') as [Ht Hb].
  split.
  - rewrite retarget_post. cbn [heap].
    apply insert_subseteq, (fresh_block_unused m').
  - eexists _, _, _, _. split; [exact Ht|]. split; [exact Hb|].
    rewrite build_block_txs. split; [apply last_snoc|].
    repeat (split; [reflexivity|]). reflexivity.
Qed.

(** ** Blocks over a whole run *)

Lemma retarget_keeps_blocks now rnd (m : Miner) l b :
  heap m !! l = Some b -> heap (post (retarget now rnd m)) !! l = Some b.
Proof.
  intros Hb. rewrite retarget_post. cbn [heap].
  rewrite lookup_insert_ne; [exact Hb|].
  intros Heq. pose proof (fresh_block_unused m) as Hf. congruence.
Qed.

Lemma start_mining_keeps_blocks now rnd (m : Miner) l b :
  heap m !! l = Some b -> heap (post (start_mining now rnd m)) !! l = Some b.
Proof.
  intros Hb. destruct (mining_thread m) as [th|] eqn:Hth.
  - rewrite (start_mining_running now rnd m th Hth). exact Hb.
  - rewrite (start_mining_idle now rnd m Hth). cbn [post].
    set (m0 := set_retarget_event false _).
    apply (retarget_keeps_blocks now rnd m0 l b Hb).
Qed.

Lemma stop_mining_heap (m : Miner) : heap (post (stop_mining m)) = heap m.
Proof. unfold stop_mining. destruct (mining_thread m); reflexivity. Qed.

Lemma get_hashrate_heap (m : Miner) : heap (post (get_hashrate m)) = heap m.
Proof. unfold get_hashrate. destruct (mining_thread m); reflexivity. Qed.

Lemma sys_step_taken (s : System) a l :
  l ∈ sys_taken s -> l ∈ sys_taken (sys_step s a).
Proof.
  intros Hl. destruct a as [now rnd|now rnd seed| | | |t0 t1];
    cbn [sys_step sys_taken]; try exact Hl.
  - unfold get_mined_block. cbn [res].
    destruct (mined_block (sys_miner s)); [right|]; exact Hl.
  - destruct (sys_thread s); [|exact Hl].
    destruct (mine_step _ _ _ _). exact Hl.
Qed.

(** X17: blocks are only ever changed in their nonce: whatever calls of the
    controller and steps of the thread follow each other, a block that
    exists stays in the store with its parent, previous hash, timestamp,
    difficulty, transactions and merkle root. *)
Theorem blocks_change_only_in_nonce (s : System) (acts : list action)
  (l : loc) (b : Block ChainHead) :
  heap (sys_miner s) !! l = Some b ->
  exists n,
    heap (sys_miner (sys_run s acts)) !! l = Some (set_nonce n b) /\
    (forall b', heap (sys_miner (sys_run s acts)) !! l = Some b' ->
       parent b' = parent b /\ prev_hash b' = prev_hash b /\
       timestamp b' = timestamp b /\ diff b' = diff b /\
       txs b' = txs b /\ merkle_root b' = merkle_root b).
Proof.
  intros Hb.
  assert (Hrun : exists n,
            heap (sys_miner (sys_run s acts)) !! l = Some (set_nonce n b)).
  { revert s b Hb. induction acts as [|a acts IH]; intros s b Hb.
    - exists (nonce b). rewrite set_nonce_same. exact Hb.
    - assert (Hstep : exists n, heap (sys_miner (sys_step s a)) !! l
                                 = Some (set_nonce n b)).
      { destruct a as [now rnd|now rnd seed| | | |t0 t1]; cbn [sys_step sys_miner].
        - exists (nonce b). rewrite set_nonce_same.
          apply retarget_keeps_blocks, Hb.
        - exists (nonce b). rewrite set_nonce_same.
          apply start_mining_keeps_blocks, Hb.
        - exists (nonce b). rewrite set_nonce_same, stop_mining_heap. exact Hb.
        - exists (nonce b). rewrite set_nonce_same, get_hashrate_heap. exact Hb.
        - exists (nonce b). rewrite set_nonce_same. exact Hb.
        - destruct (sys_thread s) as [w|];
            [|exists (nonce b); rewrite set_nonce_same; exact Hb].
          destruct (mine_step_blocks t0 t1 (sys_miner s) w l b Hb) as [n Hn].
          destruct (mine_step t0 t1 (sys_miner s) w) as [m' w'].
          exists n. exact Hn. }
      destruct Hstep as [n1 H1].
      destruct (IH (sys_step s a) _ H1) as [n2 H2].
      exists n2. exact H2. }
  destruct Hrun as [n Hn]. exists n. split; [exact Hn|].
  intros b' Hb'. assert (b' = set_nonce n b) as -> by congruence.
  repeat split; reflexivity.
Qed.

(** X18: a block that [get_mined_block] has handed out is left alone for
    good: in every run from [Miner_init] on, with the one hashing thread,
    such a block exists and no later call or step changes it, its nonce
    included. *)
Theorem handed_out_blocks_frozen (bc : Blockchain) (mp : Mempool)
  (pk : bytes) (reduce : bool) (h : gmap loc (Block ChainHead))
  (acts later : list action) (l : loc) :
  let s := sys_run (sys_init bc mp pk reduce h) acts in
  l ∈ sys_taken s ->
  is_Some (heap (sys_miner s) !! l) /\
  heap (sys_miner (sys_run s later)) !! l = heap (sys_miner s) !! l /\
  l ∈ sys_taken (sys_run s later).
Proof.
  intros s Hl.
  pose proof (sys_inv_run acts _ (sys_inv_init bc mp pk reduce h)) as Hinv.
  fold s in Hinv. clearbody s. split.
  { destruct Hinv as (Ha & _). apply Ha. auto. }
  revert s Hinv Hl. induction later as [|a later IH]; intros s Hinv Hl.
  - split; [reflexivity|exact Hl].
  - cbn [sys_run fold_left].
    pose proof (sys_inv_step s a Hinv) as Hinv'.
    pose proof (sys_step_taken s a l Hl) as Hl'.
    destruct (IH (sys_step s a) Hinv' Hl') as [Hheap Htaken].
    split; [|exact Htaken].
    unfold sys_run in Hheap. rewrite Hheap.
    destruct Hinv as (Ha & Ht & _).
    destruct (Ha l ltac:(auto)) as [b Hb].
    destruct (Ht l Hl) as (_ & _ & Hthr).
    destruct a as [now rnd|now rnd seed| | | |t0 t1]; cbn [sys_step sys_miner].
    + rewrite Hb. apply retarget_keeps_blocks, Hb.
    + rewrite Hb. apply start_mining_keeps_blocks, Hb.
    + rewrite stop_mining_heap. reflexivity.
    + rewrite get_hashrate_heap. reflexivity.
    + reflexivity.
    + unfold thread_target in Hthr.
      destruct (sys_thread s) as [w|]; [|reflexivity].
      destruct (mine_step_heap t0 t1 (sys_miner s) w)
        as [Hsame|(l0 & n & Hw & Halter)];
        destruct (mine_step t0 t1 (sys_miner s) w) as [m' w'];
        cbn [fst sys_miner] in *.
      * rewrite Hsame. reflexivity.
      * rewrite Halter. apply lookup_alter_ne. congruence.
Qed.

(** Where a block of the store comes from: it was there before the step,
    up to its nonce, or the step built it as a candidate. *)
Lemma sys_step_block_origin (s : System) a l b' :
  heap (sys_miner (sys_step s a)) !! l = Some b' ->
  (exists b n, heap (sys_miner s) !! l = Some b /\ b' = set_nonce n b) \/
  (exists now rnd (m0 : Miner), b' = build_block now rnd m0 l).
Proof.
  assert (Hold : forall b, heap (sys_miner s) !! l = Some b ->
            exists b0 n, heap (sys_miner s) !! l = Some b0 /\
                         b = set_nonce n b0).
  { intros b Hb. exists b, (nonce b). rewrite set_nonce_same. auto. }
  assert (Hret : forall now rnd (m0 : Miner),
            heap m0 = heap (sys_miner s) ->
            heap (post (retarget now rnd m0)) !! l = Some b' ->
            (exists b n, heap (sys_miner s) !! l = Some b /\
                         b' = set_nonce n b) \/
            (exists now rnd (m0 : Miner), b' = build_block now rnd m0 l)).
  { intros now rnd m0 Hh. rewrite retarget_post. cbn [heap].
    destruct (decide (fresh (dom (heap m0)) = l)) as [<-|Hne].
    - rewrite lookup_insert_eq. intros Heq. right.
      exists now, rnd, m0. congruence.
    - rewrite lookup_insert_ne by exact Hne. rewrite Hh. intros Hb.
      left. apply Hold, Hb. }
  destruct a as [now rnd|now rnd seed| | | |t0 t1]; cbn [sys_step sys_miner].
  - apply Hret. reflexivity.
  - destruct (mining_thread (sys_miner s)) as [th|] eqn:Hth.
    + rewrite (start_mining_running now rnd _ th Hth). cbn [post].
      intros Hb. left. apply Hold, Hb.
    + rewrite (start_mining_idle now rnd _ Hth). cbn [post].
      set (m0 := set_retarget_event false _).
      apply (Hret now rnd m0). reflexivity.
  - rewrite stop_mining_heap. intros Hb. left. apply Hold, Hb.
  - rewrite get_hashrate_heap. intros Hb. left. apply Hold, Hb.
  - intros Hb. left. apply Hold, Hb.
  - destruct (sys_thread s) as [w|]; [|intros Hb; left; apply Hold, Hb].
    destruct (mine_step_heap t0 t1 (sys_miner s) w)
      as [Hsame|(l0 & n & _ & Halter)];
      destruct (mine_step t0 t1 (sys_miner s) w) as [m' w'];
      cbn [fst sys_miner] in *.
    + rewrite Hsame. intros Hb. left. apply Hold, Hb.
    + rewrite Halter. destruct (decide (l0 = l)) as [->|Hne].
      * rewrite lookup_alter_eq.
        destruct (heap (sys_miner s) !! l) as [b|]; [|discriminate].
        cbn. intros Heq. left. exists b, n. split; [reflexivity|congruence].
      * rewrite lookup_alter_ne by exact Hne. intros Hb. left.
        apply Hold, Hb.
Qed.

(** X19: every block the miner has created is a complete candidate and
    stays one, mined or not: in every run from [Miner_init] on, a block of
    the store that was not there at the beginning has a parent, carries the
    merkle root of its own transaction list, and ends with a coinbase of
    one input and one output, whose output refers back to this very
    block. *)
Theorem created_blocks_are_candidates (bc : Blockchain) (mp : Mempool)
  (pk : bytes) (reduce : bool) (h : gmap loc (Block ChainHead))
  (acts : list action) (l : loc) (b : Block ChainHead) :
  heap (sys_miner (sys_run (sys_init bc mp pk reduce h) acts)) !! l = Some b ->
  h !! l = None ->
  is_Some (parent b) /\
  merkle_root b = merkle_root_of (txs b) /\
  exists cb inp out,
    last (txs b) = Some cb /\
    inputs cb = [inp] /\
    outputs cb = [out] /\
    out_block out = Some l.
Proof.
  intros Hb Hh.
  assert (Horigin : exists now rnd (m0 : Miner) n,
            b = set_nonce n (build_block now rnd m0 l)).
  { revert b Hb.
    induction acts as [|a acts IH] using rev_ind; intros b Hb.
    - cbn in Hb. congruence.
    - unfold sys_run in Hb. rewrite fold_left_app in Hb. cbn [fold_left] in Hb.
      apply sys_step_block_origin in Hb
        as [(b0 & n & Hb0 & ->)|(now & rnd & m0 & ->)].
      + destruct (IH b0 Hb0) as (now & rnd & m0 & n0 & ->).
        exists now, rnd, m0, n. reflexivity.
      + exists now, rnd, m0, (nonce (build_block now rnd m0 l)).
        rewrite set_nonce_same. reflexivity. }
  destruct Horigin as (now & rnd & m0 & n & ->).
  split; [cbn; eauto|]. split; [reflexivity|].
  eexists _, _, _.
  change (txs (set_nonce n (build_block now rnd m0 l)))
    with (txs (build_block now rnd m0 l)).
  rewrite build_block_txs. split; [apply last_snoc|].
  split; [reflexivity|]. split; reflexivity.
Qed.

End Further.

(** ** The further properties on the toy instances *)

(** The nonces 1 and 2 give different messages. *)
Lemma hash_inputs_distinct_witness :
  pack_Q 1 = Ok [x00; x00; x00; x00; x00; x00; x00; x01] /\
  pack_Q 2 = Ok [x00; x00; x00; x00; x00; x00; x00; x02] /\
  ([xab] ++ [x00; x00; x00; x00; x00; x00; x00; x01] =
   [xab] ++ [x00; x00; x00; x00; x00; x00; x00; x02] <-> 1 = 2).
Proof.
  assert (H1 : pack_Q 1 = Ok [x00; x00; x00; x00; x00; x00; x00; x01])
    by reflexivity.
  assert (H2 : pack_Q 2 = Ok [x00; x00; x00; x00; x00; x00; x00; x02])
    by reflexivity.
  split; [exact H1|]. split; [exact H2|].
  exact (proj1 (hash_inputs_distinct [xab] 1 2 _ _ H1 H2)).
Defined.

(** Two retargets of [toy_pending] with different random bytes. *)
Lemma coinbase_random_index_witness :
  length toy_seed = 4%nat /\
  length zero_seed = 4%nat /\
  exists l blk blk',
    heap (post (retarget (E := Toy) 1000 toy_seed toy_pending)) !! l = Some blk /\
    heap (post (retarget (E := Toy) 1000 zero_seed toy_pending)) !! l = Some blk' /\
    (txs blk = txs blk' <-> toy_seed = zero_seed).
Proof.
  assert (H1 : length toy_seed = 4%nat) by reflexivity.
  assert (H2 : length zero_seed = 4%nat) by reflexivity.
  split; [exact H1|]. split; [exact H2|].
  destruct (coinbase_random_index (E := Toy) 1000 toy_seed zero_seed
              toy_pending H1 H2)
    as (l & blk & blk' & cb & cb' & out & _ & _ & Hb & Hb' & _ & _ & _ & _
        & _ & _ & _ & _ & Htxs).
  exists l, blk, blk'. split; [exact Hb|]. split; [exact Hb'|exact Htxs].
Defined.

(** Difficulty 13 on two-byte digests: a hit has nothing above bit 2. *)
Lemma hit_iff_leading_zero_bits_witness :
  search_diff (reduce_local_diff (toy_started 13 false))
    (diff (deref (heap (toy_started 13 false)) 1%positive))
  <= 8 * @HASH_LEN Toy /\
  (is_hit (E := Toy)
     (w_prefix (enter_search (toy_started 13 false) 1%positive
                  (mine_init toy_seed)))
     (w_target_hash (enter_search (toy_started 13 false) 1%positive
                       (mine_init toy_seed)))
     (to_bytes_big 8 0) = true <->
   Z.shiftr
     (int_from_bytes_big
        (@crypto_h Toy
           (w_prefix (enter_search (toy_started 13 false) 1%positive
                        (mine_init toy_seed)) ++ to_bytes_big 8 0)))
     (8 * @HASH_LEN Toy -
      search_diff (reduce_local_diff (toy_started 13 false))
        (diff (deref (heap (toy_started 13 false)) 1%positive))) = 0).
Proof.
  assert (H : search_diff (reduce_local_diff (toy_started 13 false))
                (diff (deref (heap (toy_started 13 false)) 1%positive))
              <= 8 * @HASH_LEN Toy) by (vm_compute; discriminate).
  split; [exact H|].
  exact (proj2 (hit_iff_leading_zero_bits (E := Toy) (toy_started 13 false)
                  1%positive (mine_init toy_seed) H (to_bytes_big 8 0))).
Defined.

(** With difficulty 0 the first nonce of a batch is taken. *)
Lemma threshold_edges_witness :
  0 <= @HASH_LEN Toy /\
  (forall bs, length (@crypto_h Toy bs) = Z.to_nat (@HASH_LEN Toy)) /\
  batch (E := Toy) 1
    (w_prefix (enter_search (toy_started 0 false) 1%positive
                 (mine_init toy_seed)))
    (w_target_hash (enter_search (toy_started 0 false) 1%positive
                      (mine_init toy_seed))) 5 = BatchHit 5.
Proof.
  assert (H1 : 0 <= @HASH_LEN Toy) by (vm_compute; discriminate).
  assert (H2 : forall bs, length (@crypto_h Toy bs) = Z.to_nat (@HASH_LEN Toy))
    by (intros bs; apply length_to_bytes_big).
  split; [exact H1|]. split; [exact H2|].
  apply (proj1 (threshold_edges (E := Toy) (toy_started 0 false) 1%positive
                  (mine_init toy_seed) H1 H2)).
  - vm_compute. discriminate.
  - split; [vm_compute; discriminate|reflexivity].
Defined.

(** Difficulty 13 reduced to 3: a threshold 1024 times as large. *)
Lemma reduced_threshold_relaxes_witness :
  1 <= 13 <= 8 * @HASH_LEN Toy /\
  exists t t_red,
    target_hash_of (E := Toy) (search_diff false 13) = Ok t /\
    target_hash_of (E := Toy) (search_diff true 13) = Ok t_red /\
    t_red = 2 ^ 10 * t.
Proof.
  assert (H : 1 <= 13 <= 8 * @HASH_LEN Toy)
    by (split; vm_compute; discriminate).
  split; [exact H|].
  destruct (reduced_threshold_relaxes (E := Toy) 13 H)
    as (t & t_red & Ht & Htr & _ & H11 & _).
  exists t, t_red. split; [exact Ht|]. split; [exact Htr|].
  apply H11. vm_compute. discriminate.
Defined.

(** From 9360 the toy hash misses twice and hits at 9362. *)
Lemma batch_reports_first_hit_witness :
  0 <= 9360 /\ 9362 < 2 ^ 64 /\
  (batch (E := Toy) 5 [] 8 9360 = BatchHit 9362 <->
   9360 <= 9362 < 9360 + Z.of_nat 5 /\
   is_hit (E := Toy) [] 8 (to_bytes_big 8 9362) = true /\
   forall k, 9360 <= k < 9362 ->
     is_hit (E := Toy) [] 8 (to_bytes_big 8 k) = false).
Proof.
  assert (H1 : 0 <= 9360) by lia.
  assert (H2 : 9362 < 2 ^ 64) by reflexivity.
  split; [exact H1|]. split; [exact H2|].
  exact (batch_reports_first_hit (E := Toy) 5 [] 8 9360 9362 H1 H2).
Defined.

(** A whole batch of misses on the hash that never hits. *)
Lemma batch_without_hit_witness :
  pc (snd stubborn_searching) = Searching /\
  retarget_event (fst stubborn_searching) = false /\
  0 <= w_nonce (snd stubborn_searching) /\
  w_nonce (snd stubborn_searching) + 100000 <= 2 ^ 64 /\
  (forall k,
     w_nonce (snd stubborn_searching) <= k
       < w_nonce (snd stubborn_searching) + 100000 ->
     is_hit (E := Stubborn) (w_prefix (snd stubborn_searching))
       (w_target_hash (snd stubborn_searching)) (to_bytes_big 8 k) = false) /\
  @hashrate_of Stubborn 100000 0 5 = Some 20000 /\
  w_nonce (snd (mine_step (E := Stubborn) 0 5 (fst stubborn_searching)
                  (snd stubborn_searching))) = 100042 /\
  hashrate (fst (mine_step (E := Stubborn) 0 5 (fst stubborn_searching)
                   (snd stubborn_searching))) = 20000.
Proof.
  assert (H1 : pc (snd stubborn_searching) = Searching) by reflexivity.
  assert (H2 : retarget_event (fst stubborn_searching) = false) by reflexivity.
  assert (H3 : 0 <= w_nonce (snd stubborn_searching))
    by (vm_compute; discriminate).
  assert (H4 : w_nonce (snd stubborn_searching) + 100000 <= 2 ^ 64)
    by (vm_compute; discriminate).
  assert (H5 : forall k,
            w_nonce (snd stubborn_searching) <= k
              < w_nonce (snd stubborn_searching) + 100000 ->
            is_hit (E := Stubborn) (w_prefix (snd stubborn_searching))
              (w_target_hash (snd stubborn_searching)) (to_bytes_big 8 k)
            = false) by (intros k _; reflexivity).
  assert (H6 : @hashrate_of Stubborn 100000 0 5 = Some 20000) by reflexivity.
  split; [exact H1|]. split; [exact H2|]. split; [exact H3|].
  split; [exact H4|]. split; [exact H5|]. split; [exact H6|].
  rewrite (batch_without_hit (E := Stubborn) 0 5 (fst stubborn_searching)
             (snd stubborn_searching) 20000 H1 H2 H3 H4 H5 H6).
  split; reflexivity.
Defined.

(** A thread seeded with 42 is far from the end of the 64-bit range. *)
Lemma struct_error_out_of_reach_witness :
  length toy_seed = 4%nat /\
  rtc (thread_step (E := Toy)) (mine_init toy_seed) (mine_init toy_seed) /\
  w_nonce (mine_init toy_seed) + 100000 <= 2 ^ 64 /\
  pc (snd (mine_step (E := Toy) 0 0 (toy_started 13 false)
             (mine_init toy_seed))) <> Crashed StructError.
Proof.
  assert (H1 : length toy_seed = 4%nat) by reflexivity.
  assert (H2 : rtc (thread_step (E := Toy)) (mine_init toy_seed)
                 (mine_init toy_seed)) by apply rtc_refl.
  assert (H3 : w_nonce (mine_init toy_seed) + 100000 <= 2 ^ 64)
    by (vm_compute; discriminate).
  split; [exact H1|]. split; [exact H2|]. split; [exact H3|].
  exact (proj1 (proj2 (struct_error_out_of_reach (E := Toy) toy_seed
                         (mine_init toy_seed) 0 0 (toy_started 13 false)
                         H1 H2 H3))).
Defined.

(** Before the first start the toy miner has no target: a thread would
    wait. *)
Lemma waiting_without_target_witness :
  pc (mine_init toy_seed) = Waiting /\
  target_block (toy_miner 0 13 false [] 0) = None /\
  stop_event (toy_miner 0 13 false [] 0) = false /\
  [(0, 0); (1, 1)] <> @nil (Z * Z) /\
  mine_run (E := Toy) [(0, 0); (1, 1)] (toy_miner 0 13 false [] 0)
    (mine_init toy_seed) =
  (set_retarget_event false (toy_miner 0 13 false [] 0),
   set_pc Waiting (set_w_target_block None (mine_init toy_seed))).
Proof.
  assert (H1 : pc (mine_init toy_seed) = Waiting) by reflexivity.
  assert (H2 : target_block (toy_miner 0 13 false [] 0) = None) by reflexivity.
  assert (H3 : stop_event (toy_miner 0 13 false [] 0) = false) by reflexivity.
  assert (H4 : [(0, 0); (1, 1)] <> @nil (Z * Z)) by discriminate.
  split; [exact H1|]. split; [exact H2|]. split; [exact H3|].
  split; [exact H4|].
  exact (waiting_without_target (E := Toy) [(0, 0); (1, 1)]
           (toy_miner 0 13 false [] 0) (mine_init toy_seed) H1 H2 H3 H4).
Defined.

(** The toy thread is stopped in the middle of its search. *)
Lemma stop_ends_thread_witness :
  res (stop_mining (fst toy_searching)) = Ok tt /\
  ended (snd (mine_run (E := Toy) [(0, 4); (4, 4)]
                (post (stop_mining (fst toy_searching)))
                (snd toy_searching))) = true.
Proof.
  assert (H : res (stop_mining (fst toy_searching)) = Ok tt) by reflexivity.
  split; [exact H|].
  exact (proj1 (proj2 (proj2 (stop_ends_thread (E := Toy) (fst toy_searching)
                                (snd toy_searching) (0, 4) (4, 4) [] H)))).
Defined.

(** Start, stop and start again on the toy miner. *)
Lemma start_stop_alternate_witness :
  mining_thread (toy_miner 0 13 false [] 0) = None /\
  res (start_mining (E := Toy) 1001 zero_seed
         (post (start_mining 1000 toy_seed (toy_miner 0 13 false [] 0))))
  = Raise MinerIsRunningException /\
  res (stop_mining
         (post (start_mining (E := Toy) 1000 toy_seed
                  (toy_miner 0 13 false [] 0)))) = Ok tt.
Proof.
  assert (H : mining_thread (toy_miner 0 13 false [] 0) = None) by reflexivity.
  split; [exact H|].
  destruct (start_stop_alternate (E := Toy) 1000 1001 toy_seed zero_seed
              (toy_miner 0 13 false [] 0) H) as (_ & H2 & H3 & _).
  split; [exact H2|exact H3].
Defined.

(** The batch of the toy thread that hits at once consumes no nonce. *)
Lemma hashrate_is_last_sample_witness :
  pc (snd toy_searching) = Searching /\
  retarget_event (fst toy_searching) = false /\
  mining_thread (fst toy_searching) = Some MinerThread /\
  0 <= w_nonce (snd (mine_step (E := Toy) 0 4 (fst toy_searching)
                       (snd toy_searching)))
       - w_nonce (snd toy_searching) <= 100000.
Proof.
  assert (H1 : pc (snd toy_searching) = Searching) by reflexivity.
  assert (H2 : retarget_event (fst toy_searching) = false) by reflexivity.
  assert (H3 : mining_thread (fst toy_searching) = Some MinerThread)
    by reflexivity.
  split; [exact H1|]. split; [exact H2|]. split; [exact H3|].
  exact (proj1 (hashrate_is_last_sample (E := Toy) 0 4 (fst toy_searching)
                  (snd toy_searching) MinerThread H1 H2 H3)).
Defined.

(** A retarget while the toy thread searches the block 1. *)
Lemma retarget_reaches_thread_witness :
  pc (snd toy_searching) = Searching /\
  stop_event (fst toy_searching) = false /\
  w_target_block
    (snd (mine_run (E := Toy) [(0, 0); (0, 0)]
            (post (retarget 1001 toy_seed (fst toy_searching)))
            (snd toy_searching)))
  = Some (fresh (dom (heap (fst toy_searching)))).
Proof.
  assert (H1 : pc (snd toy_searching) = Searching) by reflexivity.
  assert (H2 : stop_event (fst toy_searching) = false) by reflexivity.
  split; [exact H1|]. split; [exact H2|].
  exact (proj1 (retarget_reaches_thread (E := Toy) 1001 toy_seed
                  (fst toy_searching) (snd toy_searching) (0, 0) (0, 0)
                  H1 H2)).
Defined.

(** The first candidate of the toy miner over a retarget and a hit. *)
Lemma blocks_change_only_in_nonce_witness :
  heap (toy_started 13 false) !! 1%positive
  = Some (deref (heap (toy_started 13 false)) 1%positive) /\
  exists n,
    heap (sys_miner
            (sys_run (E := Toy)
               {| sys_miner := toy_started 13 false;
                  sys_thread := Some (mine_init zero_seed);
                  sys_taken := [] |}
               [@DoThreadStep Toy 0 0; @DoThreadStep Toy 0 4;
                DoRetarget 1001 toy_seed])) !! 1%positive
    = Some (set_nonce n (deref (heap (toy_started 13 false)) 1%positive)).
Proof.
  assert (H : heap (toy_started 13 false) !! 1%positive
              = Some (deref (heap (toy_started 13 false)) 1%positive))
    by reflexivity.
  split; [exact H|].
  destruct (blocks_change_only_in_nonce (E := Toy)
              {| sys_miner := toy_started 13 false;
                 sys_thread := Some (mine_init zero_seed);
                 sys_taken := [] |}
              [@DoThreadStep Toy 0 0; @DoThreadStep Toy 0 4;
               DoRetarget 1001 toy_seed]
              1%positive _ H) as (n & Hn & _).
  exists n. exact Hn.
Defined.

(** The block 1 is mined, collected, and then left alone. *)
Lemma handed_out_blocks_frozen_witness :
  1%positive ∈
    sys_taken
      (sys_run (E := Toy)
         (sys_init (Build_Blockchain (E := Toy) (0%N, 13) [])
            (Build_Mempool [] 0 []) [x01; x02] false ∅)
         [DoStart 1000 toy_seed zero_seed; @DoThreadStep Toy 0 0;
          @DoThreadStep Toy 0 4; DoGetMinedBlock]) /\
  is_Some
    (heap
       (sys_miner
          (sys_run (E := Toy)
             (sys_init (Build_Blockchain (E := Toy) (0%N, 13) [])
                (Build_Mempool [] 0 []) [x01; x02] false ∅)
             [DoStart 1000 toy_seed zero_seed; @DoThreadStep Toy 0 0;
              @DoThreadStep Toy 0 4; DoGetMinedBlock])) !! 1%positive).
Proof.
  assert (H : 1%positive ∈
            sys_taken
              (sys_run (E := Toy)
                 (sys_init (Build_Blockchain (E := Toy) (0%N, 13) [])
                    (Build_Mempool [] 0 []) [x01; x02] false ∅)
                 [DoStart 1000 toy_seed zero_seed; @DoThreadStep Toy 0 0;
                  @DoThreadStep Toy 0 4; DoGetMinedBlock]))
    by (vm_compute; apply list_elem_of_here).
  split; [exact H|].
  exact (proj1 (handed_out_blocks_frozen (E := Toy)
                  (Build_Blockchain (E := Toy) (0%N, 13) [])
                  (Build_Mempool [] 0 []) [x01; x02] false ∅
                  [DoStart 1000 toy_seed zero_seed; @DoThreadStep Toy 0 0;
                   @DoThreadStep Toy 0 4; DoGetMinedBlock]
                  [DoRetarget 1001 toy_seed] 1%positive H)).
Defined.

(** The block mined in a short run of the toy miner is a candidate. *)
Lemma created_blocks_are_candidates_witness :
  heap (sys_miner
          (sys_run (E := Toy)
             (sys_init (Build_Blockchain (E := Toy) (0%N, 13) [])
                (Build_Mempool [] 0 []) [x01; x02] false ∅)
             [DoStart 1000 toy_seed zero_seed; @DoThreadStep Toy 0 0;
              @DoThreadStep Toy 0 4])) !! 1%positive
  = Some (set_nonce 0 (deref (heap (toy_started 13 false)) 1%positive)) /\
  (∅ : gmap loc (Block (@ChainHead Toy))) !! 1%positive = None /\
  merkle_root (set_nonce 0 (deref (heap (toy_started 13 false)) 1%positive))
  = @merkle_root_of Toy
      (txs (set_nonce 0 (deref (heap (toy_started 13 false)) 1%positive))).
Proof.
  assert (H1 : heap (sys_miner
                 (sys_run (E := Toy)
                    (sys_init (Build_Blockchain (E := Toy) (0%N, 13) [])
                       (Build_Mempool [] 0 []) [x01; x02] false ∅)
                    [DoStart 1000 toy_seed zero_seed; @DoThreadStep Toy 0 0;
                     @DoThreadStep Toy 0 4])) !! 1%positive
               = Some (set_nonce 0
                         (deref (heap (toy_started 13 false)) 1%positive)))
    by (vm_compute; reflexivity).
  assert (H2 : (∅ : gmap loc (Block (@ChainHead Toy))) !! 1%positive = None)
    by reflexivity.
  split; [exact H1|]. split; [exact H2|].
  exact (proj1 (proj2 (created_blocks_are_candidates (E := Toy)
                         (Build_Blockchain (E := Toy) (0%N, 13) [])
                         (Build_Mempool [] 0 []) [x01; x02] false ∅
                         [DoStart 1000 toy_seed zero_seed;
                          @DoThreadStep Toy 0 0; @DoThreadStep Toy 0 4]
                         1%positive _ H1 H2))).
Defined.
